(** * trend_finder.py: a shallow embedding and its verified properties

    The development follows [src/trend_finder.py] function by function.

    Modelling conventions.
    - Python [float] values are idealised as exact rationals ([Q]); there is
      no NaN, no infinity and no rounding error.  Python [int] is [Z].
    - A Python call either returns a value or raises: [exc A].
    - Decoded JSON (the value of [resp.json()]) is the inductive [json];
      a [dict] is an association list in insertion order.
    - The network, the process environment and the trend library are an
      explicit [world] of oracles: the same request gets the same reply.
    - [float(s)] on a string is a parameter [float_of_str] of the
      development ([None] stands for [ValueError]). *)

From Stdlib Require Import ZArith QArith List String Ascii Bool Lia.
From Stdlib Require Import Permutation Sorted.
From Stdlib Require Import Lqa.
Import ListNotations.
Local Open Scope string_scope.
Local Open Scope list_scope.
Local Open Scope Z_scope.

(** ** Exceptions and the exception monad *)

Inductive exn : Type :=
| RequestException   (* requests: connection error, timeout, HTTP error status *)
| ResponseError      (* pytrends.exceptions.ResponseError *)
| JSONDecodeError
| AttributeError
| IndexError
| KeyError
| TypeError
| ValueError.

Inductive exc (A : Type) : Type :=
| Ok (a : A)
| Raise (e : exn).
Arguments Ok {A} a.
Arguments Raise {A} e.

Definition bind {A B : Type} (m : exc A) (k : A -> exc B) : exc B :=
  match m with
  | Ok a => k a
  | Raise e => Raise e
  end.

Notation "x <- m ;; k" := (bind m (fun x => k))
  (at level 61, m at next level, right associativity).

(** [try: m  except cls: h] where [cls] is decided by [catches]. *)
Definition try_except {A : Type} (m : exc A) (catches : exn -> bool)
    (h : exn -> exc A) : exc A :=
  match m with
  | Ok a => Ok a
  | Raise e => if catches e then h e else Raise e
  end.

(** [except Exception] catches every exception of the model. *)
Definition any_Exception (_ : exn) : bool := true.

(** [except ValueError]; [json.JSONDecodeError] is a subclass of
    [ValueError]. *)
Definition is_ValueError (e : exn) : bool :=
  match e with
  | ValueError | JSONDecodeError => true
  | _ => false
  end.

(** ** Numbers *)

Definition Qltb (x y : Q) : bool := negb (Qle_bool y x).
Definition Qgtb (x y : Q) : bool := Qltb y x.

(** A float is true in a condition unless it is zero. *)
Definition float_truthy (x : Q) : bool := negb (Qeq_bool x 0).

(** Nearest integer, ties to the even one. *)
Definition round_half_even (x : Q) : Z :=
  let n := Qnum x in
  let d := Z.pos (Qden x) in
  let f := n / d in
  let r := n mod d in
  match 2 * r ?= d with
  | Lt => f
  | Gt => f + 1
  | Eq => if Z.even f then f else f + 1
  end.

(** [round(x, ndigits)]. *)
Definition py_round (x : Q) (ndigits : nat) : Q :=
  let s := 10 ^ Z.of_nat ndigits in
  Qred (round_half_even (x * inject_Z s) # Z.to_pos s).

(** [sum(xs)] and [min(xs)] (the latter on a non-empty list). *)
Definition py_sum (xs : list Q) : Q := fold_left Qplus xs 0%Q.

Definition py_min (x : Q) (xs : list Q) : Q :=
  fold_left (fun m y => if Qltb y m then y else m) xs x.

(** ** Strings *)

Definition str_truthy (s : string) : bool :=
  match s with
  | EmptyString => false
  | String _ _ => true
  end.

Fixpoint drop_prefix (p s : string) : option string :=
  match p, s with
  | EmptyString, _ => Some s
  | String a p', String b s' => if Ascii.eqb a b then drop_prefix p' s' else None
  | String _ _, EmptyString => None
  end.

(** [s.replace(old, new)] for a non-empty [old]: leftmost non-overlapping
    occurrences.  [skip] counts characters of a matched occurrence still to
    be dropped. *)
Fixpoint replace_from (old new s : string) (skip : nat) : string :=
  match s with
  | EmptyString => EmptyString
  | String c s' =>
      match skip with
      | S k => replace_from old new s' k
      | O =>
          match drop_prefix old s with
          | Some _ =>
              (new ++ replace_from old new s' (String.length old - 1))%string
          | None => String c (replace_from old new s' O)
          end
      end
  end.

Definition str_replace (s old new : string) : string := replace_from old new s O.

(** ** Decoded JSON and the Python operations applied to it *)

Local Set Warnings "-register-all".

Inductive json : Type :=
| JNull
| JBool (b : bool)
| JNum (x : Q)
| JStr (s : string)
| JArr (l : list json)
| JObj (kvs : list (string * json)).

Fixpoint lookup {A : Type} (k : string) (kvs : list (string * A)) : option A :=
  match kvs with
  | [] => None
  | (k', v) :: rest => if String.eqb k k' then Some v else lookup k rest
  end.

(** Truth value of an object in a condition. *)
Definition truthy (v : json) : bool :=
  match v with
  | JNull => false
  | JBool b => b
  | JNum x => float_truthy x
  | JStr s => str_truthy s
  | JArr l => match l with [] => false | _ => true end
  | JObj kvs => match kvs with [] => false | _ => true end
  end.

(** [v.get(k, default)]: only a dict has [get]. *)
Definition py_get (v : json) (k : string) (default : json) : exc json :=
  match v with
  | JObj kvs => Ok (match lookup k kvs with Some x => x | None => default end)
  | _ => Raise AttributeError
  end.

(** [v[0]]. *)
Definition py_index0 (v : json) : exc json :=
  match v with
  | JArr (x :: _) => Ok x
  | JArr [] => Raise IndexError
  | JStr (String c _) => Ok (JStr (String c EmptyString))
  | JStr EmptyString => Raise IndexError
  | JObj _ => Raise KeyError          (* JSON keys are strings, never 0 *)
  | JNull | JBool _ | JNum _ => Raise TypeError
  end.

(** [v[k]] for a string key [k]. *)
Definition py_getitem (v : json) (k : string) : exc json :=
  match v with
  | JObj kvs => match lookup k kvs with Some x => Ok x | None => Raise KeyError end
  | _ => Raise TypeError
  end.

Fixpoint chars (s : string) : list json :=
  match s with
  | EmptyString => []
  | String c s' => JStr (String c EmptyString) :: chars s'
  end.

(** The elements a [for] loop visits. *)
Definition py_iter (v : json) : exc (list json) :=
  match v with
  | JArr l => Ok l
  | JObj kvs => Ok (map (fun kv => JStr (fst kv)) kvs)
  | JStr s => Ok (chars s)
  | JNull | JBool _ | JNum _ => Raise TypeError
  end.

(** [D[k]] on one of the module's constant tables. *)
Definition table_getitem (D : list (string * string)) (k : string) : exc string :=
  match lookup k D with
  | Some v => Ok v
  | None => Raise KeyError
  end.

(** ** Configuration (lines 45-52) *)

Definition MAX_SELL_PRICE : Q := 25.
Definition MIN_MARGIN : Q := 3 # 10.
Definition MAX_LISTINGS : Z := 250.
Definition TOP_N_TRENDS : Z := 20.

Definition GOOGLE_GEOS : list (string * string) :=
  [("AU", "AU"); ("UK", "GB"); ("US", "US")].
Definition GOOGLE_PN : list (string * string) :=
  [("AU", "australia"); ("UK", "united_kingdom"); ("US", "united_states")].
Definition EBAY_GLOBAL_IDS : list (string * string) :=
  [("AU", "EBAY-AU"); ("UK", "EBAY-GB"); ("US", "EBAY-US")].

(** ** The world outside the program *)

(** Outcome of [requests.get] followed by [raise_for_status]: either a
    [RequestException], or a response whose body decodes to JSON or does
    not ([None]: [r.json()] raises). *)
Inductive http_reply : Type :=
| Failed
| Body (decoded : option json).

Record world : Type := {
  (** the global [EBAY_APP_ID] *)
  ebay_app_id : option string;
  (** [os.getenv] *)
  getenv : string -> option string;
  (** [requests.get(url, params=..., timeout=30)] *)
  http_get : string -> list (string * string) -> http_reply;
  (** [TrendReq(hl="en-US", tz=0)]: it raises, or builds a client that has
      ([true]) or lacks ([false]) the attribute [daily_trends] *)
  new_trend_req : exc bool;
  (** [tr.daily_trends(geo=geo)] and the extraction of the lower-cased
      queries from its result *)
  daily_trends : string -> exc (list string);
  (** [tr.trending_searches()] and the lower-casing of its first column *)
  trending_searches : exc (list string)
}.

(** ** The program *)

Section Program.

(** [float(s)] for a string [s]; [None] when Python raises [ValueError]. *)
Variable float_of_str : string -> option Q.

Definition py_float_str (s : string) : exc Q :=
  match float_of_str s with
  | Some x => Ok x
  | None => Raise ValueError
  end.

(** [float(v)]. *)
Definition py_float (v : json) : exc Q :=
  match v with
  | JStr s => py_float_str s
  | JNum x => Ok x
  | JBool b => Ok (if b then 1 else 0)%Q
  | JNull | JArr _ | JObj _ => Raise TypeError
  end.

(** *** Google Trends fetch (lines 69-99) *)

(** [except (AttributeError, ResponseError, ReqConnErr, RequestException)] *)
Definition caught_by_daily_trends (e : exn) : bool :=
  match e with
  | AttributeError | ResponseError | RequestException => true
  | _ => false
  end.

Definition fetch_daily_trends (w : world) (region : string) : exc (list string) :=
  geo <- table_getitem GOOGLE_GEOS region ;;
  pn <- table_getitem GOOGLE_PN region ;;
  let fallback :=
    try_except (tr <- new_trend_req w ;; trending_searches w)
      any_Exception (fun _ => Ok []) in
  let primary :=
    has <- new_trend_req w ;;
    if has then kws <- daily_trends w geo ;; Ok (Some kws) else Ok None in
  match primary with
  | Ok (Some kws) => Ok kws
  | Ok None => fallback
  | Raise e => if caught_by_daily_trends e then fallback else Raise e
  end.

Definition str_in (kw : string) (seen : list string) : bool :=
  existsb (String.eqb kw) seen.

(** The [for kw in kws] loop of [get_trending_keywords], from the state
    [seen]. *)
Fixpoint collect_keywords (kws seen : list string) (top_n : Z) : list string :=
  match kws with
  | [] => seen
  | kw :: rest =>
      let seen' :=
        if str_truthy kw && negb (str_in kw seen) then seen ++ [kw] else seen in
      if Z.of_nat (List.length seen') >=? top_n then seen'
      else collect_keywords rest seen' top_n
  end.

Definition get_trending_keywords (w : world) (region : string) (top_n : Z)
    : exc (list string) :=
  kws <- fetch_daily_trends w region ;;
  Ok (collect_keywords kws [] top_n).

(** *** eBay API call (lines 103-129) *)

Record stats : Type := { count : Z; avg_price : option Q }.

Definition ebay_url : string :=
  "https://svcs.ebay.com/services/search/FindingService/v1".

(** A parameter whose value is [None] is left out of the query. *)
Definition ebay_params (w : world) (keyword gid : string) : list (string * string) :=
  match ebay_app_id w with
  | Some a => [("SECURITY-APPNAME", a)]
  | None => []
  end ++
  [ ("OPERATION-NAME", "findItemsAdvanced");
    ("RESPONSE-DATA-FORMAT", "JSON");
    ("global-id", gid);
    ("keywords", keyword);
    ("paginationInput.entriesPerPage", "100");
    ("itemFilter(0).name", "MaxPrice");
    ("itemFilter(0).value", "25.0");
    ("itemFilter(0).paramName", "Currency");
    ("itemFilter(0).paramValue", "USD") ].

(** Lines 119-124. *)
Definition response_items (body : json) : exc json :=
  r <- py_get body "findItemsAdvancedResponse" (JArr [JObj []]) ;;
  r0 <- py_index0 r ;;
  sr <- py_get r0 "searchResult" (JArr [JObj []]) ;;
  sr0 <- py_index0 sr ;;
  py_get sr0 "item" (JArr []).

(** [float(it["sellingStatus"][0]["currentPrice"][0]["__value__"])] *)
Definition item_price (it : json) : exc Q :=
  ss <- py_getitem it "sellingStatus" ;;
  ss0 <- py_index0 ss ;;
  cp <- py_getitem ss0 "currentPrice" ;;
  cp0 <- py_index0 cp ;;
  v <- py_getitem cp0 "__value__" ;;
  py_float v.

(** The comprehension of lines 125-128. *)
Fixpoint item_prices (its : list json) : exc (list Q) :=
  match its with
  | [] => Ok []
  | it :: rest =>
      ss <- py_get it "sellingStatus" JNull ;;
      if truthy ss then
        p <- item_price it ;;
        ps <- item_prices rest ;;
        Ok (p :: ps)
      else item_prices rest
  end.

(** Line 129. *)
Definition stats_of_prices (prices : list Q) : stats :=
  {| count := Z.of_nat (List.length prices);
     avg_price :=
       match prices with
       | [] => None
       | _ :: _ => Some (py_sum prices / inject_Z (Z.of_nat (List.length prices)))%Q
       end |}.

Definition stats_of_body (body : json) : exc stats :=
  items <- response_items body ;;
  its <- py_iter items ;;
  prices <- item_prices its ;;
  Ok (stats_of_prices prices).

Definition ebay_search_stats (w : world) (keyword gid : string) : exc stats :=
  match http_get w ebay_url (ebay_params w keyword gid) with
  | Failed => Raise RequestException
  | Body None => Raise JSONDecodeError
  | Body (Some body) => stats_of_body body
  end.

(** *** AliExpress cost (lines 133-153) *)

Definition env_truthy (v : option string) : bool :=
  match v with
  | Some s => str_truthy s
  | None => false
  end.

Definition aliexpress_url (ak : string) : string :=
  ("https://gw.api.alibaba.com/openapi/param2/2/portals.open/api.listPromotionProduct/"
   ++ ak)%string.

Definition aliexpress_params (keyword tid : string) : list (string * string) :=
  [ ("fields", "productTitle,originalPrice,salePrice");
    ("keywords", keyword);
    ("sort", "salePrice_asc");
    ("pageSize", "20");
    ("trackingId", tid) ].

(** [prod.get("salePrice") or prod.get("originalPrice")] *)
Definition product_text (prod : json) : exc json :=
  sale <- py_get prod "salePrice" JNull ;;
  if truthy sale then Ok sale else py_get prod "originalPrice" JNull.

(** [txt.replace(old, new)]: only a string has [replace]. *)
Definition py_replace (txt : json) (old new : string) : exc string :=
  match txt with
  | JStr s => Ok (str_replace s old new)
  | _ => Raise AttributeError
  end.

(** The [for prod in ...] loop of lines 146-152, from the state [prices]. *)
Fixpoint product_prices (prods : list json) (prices : list Q) : exc (list Q) :=
  match prods with
  | [] => Ok prices
  | prod :: rest =>
      txt <- product_text prod ;;
      if truthy txt then
        prices' <- try_except
                     (s <- py_replace txt "US $" EmptyString ;;
                      x <- py_float_str s ;;
                      Ok (prices ++ [x]))
                     is_ValueError
                     (fun _ => Ok prices) ;;
        product_prices rest prices'
      else product_prices rest prices
  end.

(** Lines 143-153, on the decoded body. *)
Definition lowest_of_body (data : json) : exc (option Q) :=
  success <- py_get data "success" JNull ;;
  if negb (truthy success) then Ok None
  else
    result <- py_get data "result" (JObj []) ;;
    products <- py_get result "products" (JArr []) ;;
    prods <- py_iter products ;;
    prices <- product_prices prods [] ;;
    Ok (match prices with
        | [] => None
        | p :: ps => Some (py_min p ps)
        end).

Definition aliexpress_lowest_price (w : world) (keyword : string) : exc (option Q) :=
  let ak := getenv w "ALIEXPRESS_APP_KEY" in
  let tid := getenv w "ALIEXPRESS_TRACKING_ID" in
  match ak, tid with
  | Some ak, Some tid =>
      if negb (str_truthy ak && str_truthy tid) then Ok None
      else
        match http_get w (aliexpress_url ak) (aliexpress_params keyword tid) with
        | Failed => Ok None
        | Body None => Raise JSONDecodeError
        | Body (Some data) => lowest_of_body data
        end
  | _, _ => Ok None
  end.

(** *** Scoring (lines 157-173) *)

(** A report cell that holds a float or the string ["n/a"]. *)
Inductive cell : Type :=
| Num (x : Q)
| NA.

Record candidate : Type := {
  keyword : string;
  region : string;
  sell_price : Q;
  cost_price : cell;
  margin_pct : cell;
  ebay_listings : Z
}.

(** Line 163: [(avg - cost)/avg if cost else None]; as a condition, a cost
    of [None] or [0.0] is false. *)
Definition margin_of (avg : Q) (cost : option Q) : option Q :=
  match cost with
  | Some c => if float_truthy c then Some ((avg - c) / avg)%Q else None
  | None => None
  end.

(** Line 164: [cost is not None and margin < MIN_MARGIN]; comparing [None]
    with a float raises [TypeError]. *)
Definition below_min_margin (cost margin : option Q) : exc bool :=
  match cost with
  | None => Ok false
  | Some _ =>
      match margin with
      | Some m => Ok (Qltb m MIN_MARGIN)
      | None => Raise TypeError
      end
  end.

Definition evaluate_keyword (w : world) (kw reg : string) : exc (option candidate) :=
  gid <- table_getitem EBAY_GLOBAL_IDS reg ;;
  st <- ebay_search_stats w kw gid ;;
  match avg_price st with
  | None => Ok None
  | Some avg =>
      if negb (float_truthy avg) || Qgtb avg MAX_SELL_PRICE
         || (count st >? MAX_LISTINGS)
      then Ok None
      else
        cost <- aliexpress_lowest_price w kw ;;
        let margin := margin_of avg cost in
        low <- below_min_margin cost margin ;;
        if low then Ok None
        else
          Ok (Some
            {| keyword := kw;
               region := reg;
               sell_price := py_round avg 2;
               cost_price :=
                 match cost with
                 | Some c => if float_truthy c then Num (py_round c 2) else NA
                 | None => NA
                 end;
               margin_pct :=
                 match margin with
                 | Some m => if float_truthy m then Num (py_round (m * 100) 1) else NA
                 | None => NA
                 end;
               ebay_listings := count st |})
  end.

(** *** Discovery (lines 177-189) *)

(** One iteration of the inner loop: the [try] block and its
    [except Exception]. *)
Definition try_keyword (w : world) (reg kw : string) (rows : list candidate)
    : exc (list candidate) :=
  try_except
    (res <- evaluate_keyword w kw reg ;;
     match res with
     | Some c => Ok (rows ++ [c])
     | None => Ok rows
     end)
    any_Exception
    (fun _ => Ok rows).

Fixpoint keyword_loop (w : world) (reg : string) (kws : list string)
    (rows : list candidate) : exc (list candidate) :=
  match kws with
  | [] => Ok rows
  | kw :: rest =>
      rows' <- try_keyword w reg kw rows ;;
      keyword_loop w reg rest rows'
  end.

Fixpoint region_loop (w : world) (regs : list string) (rows : list candidate)
    : exc (list candidate) :=
  match regs with
  | [] => Ok rows
  | reg :: rest =>
      kws <- get_trending_keywords w reg TOP_N_TRENDS ;;
      rows' <- keyword_loop w reg kws rows ;;
      region_loop w rest rows'
  end.

Definition discover_products (w : world) : exc (list candidate) :=
  region_loop w (map fst GOOGLE_GEOS) [].

(** *** Report (lines 230-236) *)

(** [DataFrame.sort_values] orders an object column by comparing its cells
    with Python's [<]: two floats by value, two equal strings are not less,
    and a string does not compare with a float. *)
Definition cell_lt (a b : cell) : exc bool :=
  match a, b with
  | Num x, Num y => Ok (Qltb x y)
  | NA, NA => Ok false
  | Num _, NA | NA, Num _ => Raise TypeError
  end.

Fixpoint insert_desc (c : candidate) (sorted : list candidate)
    : exc (list candidate) :=
  match sorted with
  | [] => Ok [c]
  | d :: rest =>
      lt <- cell_lt (margin_pct d) (margin_pct c) ;;
      if lt then Ok (c :: d :: rest)
      else
        rest' <- insert_desc c rest ;;
        Ok (d :: rest')
  end.

(** [df.sort_values(by="margin_pct", ascending=False)] *)
Fixpoint sort_values_desc (rows : list candidate) : exc (list candidate) :=
  match rows with
  | [] => Ok []
  | c :: rest =>
      sorted <- sort_values_desc rest ;;
      insert_desc c sorted
  end.

(** The rows written to the CSV file by [main] in normal mode; [None] when
    the frame is empty and nothing is written. *)
Definition written_report (w : world) : exc (option (list candidate)) :=
  rows <- discover_products w ;;
  match rows with
  | [] => Ok None
  | _ :: _ =>
      sorted <- sort_values_desc rows ;;
      Ok (Some sorted)
  end.

End Program.

(** ** The App ID resolver and the command line (lines 55-65, 214-238) *)

(** The characters that [str.strip()] removes, for strings of ASCII text:
    tab to carriage return, the four separators and the space. *)
Definition is_space (c : ascii) : bool :=
  let n := nat_of_ascii c in
  ((9 <=? n) && (n <=? 13) || (28 <=? n) && (n <=? 32))%nat.

Fixpoint lstrip (s : string) : string :=
  match s with
  | EmptyString => EmptyString
  | String c s' => if is_space c then lstrip s' else s
  end.

Fixpoint rstrip (s : string) : string :=
  match s with
  | EmptyString => EmptyString
  | String c s' =>
      let r := rstrip s' in
      if is_space c && negb (str_truthy r) then EmptyString else String c r
  end.

(** [s.strip()] *)
Definition str_strip (s : string) : string := rstrip (lstrip s).

(** What [input(...)] does: it returns the line typed, or raises. *)
Inductive input_result : Type :=
| InputLine (line : string)
| InputEOFError
| InputKeyboardInterrupt.

(** A call that returns or ends the process with [sys.exit(code)]. *)
Inductive run (A : Type) : Type :=
| Returns (a : A)
| SystemExit (code : Z).
Arguments Returns {A} a.
Arguments SystemExit {A} code.

(** A value in a condition: [None] and the empty string are false. *)
Definition if_truthy (v : option string) : option string :=
  match v with
  | Some s => if str_truthy s then Some s else None
  | None => None
  end.

Definition get_ebay_app_id (w : world) (prompt : input_result)
    (cli_arg : option string) : run string :=
  match if_truthy cli_arg with
  | Some a => Returns (str_strip a)
  | None =>
      match if_truthy (getenv w "EBAY_APP_ID") with
      | Some env => Returns (str_strip env)
      | None =>
          let val :=
            match prompt with
            | InputLine line => str_strip line
            | InputEOFError | InputKeyboardInterrupt => EmptyString
            end in
          if str_truthy val then Returns val else SystemExit 1
      end
  end.

(** The parsed command line. *)
Record cli_args : Type := {
  ebay_app_id_flag : option string;
  demo : bool;
  run_tests : bool
}.

(** What [main] did: ran the self-tests, listed the trends of each region,
    found nothing, or saved the report [rows] and printed [preview]. *)
Inductive main_output : Type :=
| TestsRun
| DemoListed (trends : list (string * list string))
| NoProducts
| Saved (rows preview : list candidate).

(** [global EBAY_APP_ID; EBAY_APP_ID = id] *)
Definition set_ebay_app_id (w : world) (id : string) : world :=
  {| ebay_app_id := Some id;
     getenv := getenv w;
     http_get := http_get w;
     new_trend_req := new_trend_req w;
     daily_trends := daily_trends w;
     trending_searches := trending_searches w |}.

(** The loop of demo mode (lines 224-226), from the lines [shown]. *)
Fixpoint demo_loop (w : world) (regs : list string)
    (shown : list (string * list string)) : exc (list (string * list string)) :=
  match regs with
  | [] => Ok shown
  | reg :: rest =>
      kws <- get_trending_keywords w reg TOP_N_TRENDS ;;
      demo_loop w rest (shown ++ [(reg, kws)])
  end.

Section CommandLine.

Variable float_of_str : string -> option Q.

(** [main] after [parse_args]; writing the file and printing are taken to
    succeed. *)
Definition main (w : world) (prompt : input_result) (args : cli_args)
    : exc (run main_output) :=
  if run_tests args then Ok (Returns TestsRun)
  else if demo args then
    shown <- demo_loop w (map fst GOOGLE_GEOS) [] ;;
    Ok (Returns (DemoListed shown))
  else
    match get_ebay_app_id w prompt (ebay_app_id_flag args) with
    | SystemExit code => Ok (SystemExit code)
    | Returns id =>
        rows <- discover_products float_of_str (set_ebay_app_id w id) ;;
        match rows with
        | [] => Ok (Returns NoProducts)
        | _ :: _ =>
            sorted <- sort_values_desc rows ;;
            Ok (Returns (Saved sorted (firstn 20 sorted)))
        end
    end.

End CommandLine.

(** ** Vocabulary of the statements *)

(** The condition of line 160 is false. *)
Definition passes_filters (n : Z) (avg : Q) : Prop :=
  ~ (avg == 0)%Q /\ (avg <= MAX_SELL_PRICE)%Q /\ n <= MAX_LISTINGS.



(** The marketplace answered the search with the decoded body [body]. *)
Definition ebay_replies (w : world) (kw gid : string) (body : json) : Prop :=
  http_get w ebay_url (ebay_params w kw gid) = Body (Some body).


(** The keywords of a feed at their first occurrence. *)
Fixpoint first_occurrences (l : list string) : list string :=
  match l with
  | [] => []
  | x :: r => x :: filter (fun y => negb (String.eqb y x)) (first_occurrences r)
  end.

Definition numeric (c : candidate) : Prop := exists x, margin_pct c = Num x.

Definition unknown (c : candidate) : Prop := margin_pct c = NA.

(** [a] may precede [b] in a report sorted by descending margin. *)
Definition margin_ge (a b : candidate) : Prop :=
  match margin_pct a, margin_pct b with
  | Num x, Num y => (y <= x)%Q
  | _, _ => False
  end.

Section Vocabulary.

Variable float_of_str : string -> option Q.

(** What the two services return for keyword [kw] in region [reg]: [n]
    priced listings of average price [avg], and the supplier quote [cost]. *)
Definition services_return (w : world) (kw reg : string) (n : Z) (avg : Q)
    (cost : option Q) : Prop :=
  exists gid,
    table_getitem EBAY_GLOBAL_IDS reg = Ok gid
    /\ ebay_search_stats float_of_str w kw gid
       = Ok {| count := n; avg_price := Some avg |}
    /\ aliexpress_lowest_price float_of_str w kw = Ok cost.

(** The candidates accepted among [kws] in region [reg], in order. *)
Definition accepted_from (w : world) (reg : string) (kws : list string)
    : list candidate :=
  flat_map
    (fun kw =>
       match evaluate_keyword float_of_str w kw reg with
       | Ok (Some c) => [c]
       | Ok None | Raise _ => []
       end)
    kws.

End Vocabulary.

(** ** Sample data used to run the program *)

Definition digit_of (c : ascii) : option Z :=
  let n := Z.of_nat (nat_of_ascii c) in
  if (48 <=? n) && (n <=? 57) then Some (n - 48) else None.

(** Digits with at most one decimal point; [any] records that a digit was
    read. *)
Fixpoint decimal_digits (s : string) (num : Z) (den : positive)
    (frac any : bool) : option Q :=
  match s with
  | EmptyString => if any then Some (Qred (num # den)) else None
  | String c s' =>
      if Ascii.eqb c "." then
        if frac then None else decimal_digits s' num den true any
      else
        match digit_of c with
        | Some d =>
            decimal_digits s' (10 * num + d) (if frac then 10 * den else den)%positive
              frac true
        | None => None
        end
  end.

(** [float] restricted to unsigned decimal literals such as ["20.0"]; what
    Python's [float] does on other strings is not needed by the samples. *)
Definition decimal_literal (s : string) : option Q := decimal_digits s 0 1 false false.

Definition ebay_item (price : json) : json :=
  JObj [("itemId", JArr [JStr "1"]);
        ("sellingStatus",
         JArr [JObj [("currentPrice",
                      JArr [JObj [("@currencyId", JStr "USD");
                                  ("__value__", price)]])]])].

Definition ebay_body (items : list json) : json :=
  JObj [("findItemsAdvancedResponse",
         JArr [JObj [("ack", JArr [JStr "Success"]);
                     ("searchResult", JArr [JObj [("item", JArr items)]]);
                     ("paginationOutput",
                      JArr [JObj [("totalEntries", JArr [JStr "4711"])]])]])].

Definition ali_body (products : list json) : json :=
  JObj [("success", JBool true); ("result", JObj [("products", JArr products)])].

Definition keyword_of (params : list (string * string)) : string :=
  match lookup "keywords" params with
  | Some k => k
  | None => EmptyString
  end.

(** A world in which the marketplace and the supplier answer by keyword and
    the trend feed lists [feed] for Australia and nothing elsewhere. *)
Definition sample_world (credentials : bool) (ebay ali : string -> http_reply)
    (feed : list string) : world :=
  {| ebay_app_id := Some "APP";
     getenv := fun name =>
       if credentials then
         if String.eqb name "ALIEXPRESS_APP_KEY" then Some "key"
         else if String.eqb name "ALIEXPRESS_TRACKING_ID" then Some "track"
         else None
       else None;
     http_get := fun url params =>
       if String.eqb url ebay_url then ebay (keyword_of params)
       else ali (keyword_of params);
     new_trend_req := Ok true;
     daily_trends := fun geo => Ok (if String.eqb geo "AU" then feed else []);
     trending_searches := Ok [] |}.

Definition priced (price : string) (_ : string) : http_reply :=
  Body (Some (ebay_body [ebay_item (JStr price)])).

Definition quoted (price : string) (_ : string) : http_reply :=
  Body (Some (ali_body [JObj [("salePrice", JStr price)]])).

(** Sample worlds. *)

Definition world_margin_50 : world :=
  sample_world true (priced "20.0") (quoted "US $10.00") ["lamp"].

Definition world_no_credentials : world :=
  sample_world false (priced "20.0") (quoted "US $19.00") ["lamp"].

Definition world_free_supply : world :=
  sample_world true (priced "20.0") (quoted "US $0.00") ["lamp"].



Definition world_two_listings : world :=
  sample_world true
    (fun _ => Body (Some (ebay_body [ebay_item (JStr "20.0");
                                     JObj [("itemId", JArr [JStr "2"])];
                                     ebay_item (JStr "10.5")])))
    (quoted "US $10.00") ["lamp"].

(** A supplier that answers with a body that is not JSON. *)
Definition world_undecodable_quote : world :=
  sample_world true (priced "20.0") (fun _ => Body None) ["lamp"].

(** A supplier that sends the sale price as a JSON number. *)
Definition world_numeric_quote : world :=
  sample_world true (priced "20.0")
    (fun _ => Body (Some (ali_body [JObj [("salePrice", JNum (25 # 2))]])))
    ["lamp"].

(** The marketplace is down for ["jam"] and answers for the other
    keywords. *)
Definition world_one_outage : world :=
  sample_world true
    (fun kw => if String.eqb kw "jam" then Failed else priced "20.0" kw)
    (quoted "US $10.00") ["mug"; "jam"; "lamp"].

(** Three keywords whose margins are 50.0, unknown (the supplier is down
    for ["mug"]) and 80.0. *)
Definition world_mixed_margins : world :=
  sample_world true (priced "20.0")
    (fun kw =>
       if String.eqb kw "mug" then Failed
       else if String.eqb kw "rug" then quoted "US $4.00" kw
       else quoted "US $10.00" kw)
    ["lamp"; "mug"; "rug"].

(** Worlds for the further properties. *)

(** [w] with other answers of the trend library. *)
Definition with_trends (w : world) (client : exc bool)
    (daily : string -> exc (list string)) (searches : exc (list string)) : world :=
  {| ebay_app_id := ebay_app_id w;
     getenv := getenv w;
     http_get := http_get w;
     new_trend_req := client;
     daily_trends := daily;
     trending_searches := searches |}.


(** A feed with an empty entry and a repeated keyword. *)
Definition world_noisy_feed : world :=
  sample_world true (priced "20.0") (quoted "US $10.00")
    ["mug"; EmptyString; "mug"; "jam"; "lamp"].

(** The primary feed fails with a caught class and the fallback answers. *)
Definition world_primary_down : world :=
  with_trends world_margin_50 (Ok true) (fun _ => Raise ResponseError)
    (Ok ["tea"; "tea"; "pot"]).

(** The extraction of the primary feed fails with a class that is not
    caught. *)
Definition world_primary_malformed : world :=
  with_trends world_margin_50 (Ok true)
    (fun geo => if String.eqb geo "GB" then Raise KeyError else Ok ["lamp"])
    (Ok ["tea"]).


Section SupplierVocabulary.

Variable float_of_str : string -> option Q.

(** What one product adds to the list of prices when its price text is a
    string. *)
Definition parsed_price (prod : json) : list Q :=
  match product_text prod with
  | Ok (JStr s) =>
      if str_truthy s then
        match float_of_str (str_replace s "US $" EmptyString) with
        | Some x => [x]
        | None => []
        end
      else []
  | _ => []
  end.

End SupplierVocabulary.

(** The product is an object whose price text is a string or is false. *)
Definition text_or_nothing (prod : json) : Prop :=
  exists v, product_text prod = Ok v /\ (truthy v = false \/ exists s, v = JStr s).

(** The text holds no letter U, so no occurrence of ["US $"]. *)
Definition no_U (t : string) : bool :=
  forallb (fun c => negb (Ascii.eqb c "U")) (list_ascii_of_string t).

(** A supplier with four products: no price, an unparsable sale price, an
    original price only, and a sale price that overrides the original. *)
Definition world_four_products : world :=
  sample_world true (priced "20.0")
    (fun _ => Body (Some (ali_body
       [ JObj [("productTitle", JStr "bare")];
         JObj [("salePrice", JStr "call us")];
         JObj [("salePrice", JNull); ("originalPrice", JStr "US $7.50")];
         JObj [("salePrice", JStr "US $3.20"); ("originalPrice", JStr "US $9.00")] ])))
    ["lamp"].

(** A marketplace whose envelope is present but empty. *)
Definition world_empty_envelope : world :=
  sample_world true
    (fun _ => Body (Some (JObj [("findItemsAdvancedResponse", JArr [])])))
    (quoted "US $10.00") ["lamp"].


(** Two keywords whose margins are 50.0 and 80.0. *)
Definition world_two_margins : world :=
  sample_world true (priced "20.0")
    (fun kw => if String.eqb kw "rug" then quoted "US $4.00" kw
               else quoted "US $10.00" kw)
    ["lamp"; "rug"].

Definition normal_mode (flag : option string) : cli_args :=
  {| ebay_app_id_flag := flag; demo := false; run_tests := false |}.

Definition demo_mode : cli_args :=
  {| ebay_app_id_flag := None; demo := true; run_tests := false |}.

(** ** Facts about numbers *)

Lemma Qltb_true_iff (x y : Q) : Qltb x y = true <-> (x < y)%Q.
Proof.
  unfold Qltb. rewrite negb_true_iff. split.
  - intros H. apply Qnot_le_lt. intros Hle.
    apply Qle_bool_iff in Hle. congruence.
  - intros H. destruct (Qle_bool y x) eqn:E; [|reflexivity].
    apply Qle_bool_iff in E. exfalso. exact (Qlt_not_le _ _ H E).
Qed.

Lemma Qltb_false_iff (x y : Q) : Qltb x y = false <-> (y <= x)%Q.
Proof.
  unfold Qltb. rewrite negb_false_iff. apply Qle_bool_iff.
Qed.

Lemma float_truthy_true_iff (x : Q) : float_truthy x = true <-> ~ (x == 0)%Q.
Proof.
  unfold float_truthy. rewrite negb_true_iff. split.
  - intros H. apply Qeq_bool_neq. exact H.
  - intros H. destruct (Qeq_bool x 0) eqn:E; [|reflexivity].
    apply Qeq_bool_iff in E. contradiction.
Qed.

Lemma float_truthy_false_iff (x : Q) : float_truthy x = false <-> (x == 0)%Q.
Proof.
  unfold float_truthy. rewrite negb_false_iff. apply Qeq_bool_iff.
Qed.







(** ** Scoring: [evaluate_keyword] *)

Section Scoring.

Variable float_of_str : string -> option Q.

Lemma filters_false (n : Z) (avg : Q) :
  passes_filters n avg ->
  negb (float_truthy avg) || Qgtb avg MAX_SELL_PRICE || (n >? MAX_LISTINGS) = false.
Proof.
  intros (Hnz & Hp & Hn).
  apply float_truthy_true_iff in Hnz. rewrite Hnz. cbn [negb orb].
  unfold Qgtb. apply Qltb_false_iff in Hp. rewrite Hp. cbn [orb].
  rewrite Z.gtb_ltb. apply Z.ltb_ge. exact Hn.
Qed.

Lemma filters_false_inv (n : Z) (avg : Q) :
  negb (float_truthy avg) || Qgtb avg MAX_SELL_PRICE || (n >? MAX_LISTINGS) = false ->
  passes_filters n avg.
Proof.
  intros H. apply orb_false_iff in H as [H Hn].
  apply orb_false_iff in H as [Hnz Hp].
  apply negb_false_iff, float_truthy_true_iff in Hnz.
  apply Qltb_false_iff in Hp.
  rewrite Z.gtb_ltb in Hn. apply Z.ltb_ge in Hn.
  repeat split; assumption.
Qed.

(** Past the filters, the result is decided by the supplier quote alone. *)
Lemma evaluate_past_filters (w : world) (kw reg : string) (n : Z) (avg : Q)
    (cost : option Q) :
  services_return float_of_str w kw reg n avg cost ->
  passes_filters n avg ->
  evaluate_keyword float_of_str w kw reg =
    (low <- below_min_margin cost (margin_of avg cost) ;;
     if low then Ok None
     else
       Ok (Some
         {| keyword := kw;
            region := reg;
            sell_price := py_round avg 2;
            cost_price :=
              match cost with
              | Some c => if float_truthy c then Num (py_round c 2) else NA
              | None => NA
              end;
            margin_pct :=
              match margin_of avg cost with
              | Some m => if float_truthy m then Num (py_round (m * 100) 1) else NA
              | None => NA
              end;
            ebay_listings := n |})).
Proof.
  intros (gid & Hgid & Hst & Hc) Hf.
  unfold evaluate_keyword. rewrite Hgid. cbn [bind]. rewrite Hst. cbn [bind avg_price count].
  rewrite (filters_false _ _ Hf). rewrite Hc. reflexivity.
Qed.






(** C3. Past the price and listing filters and with no supplier quote,
    [evaluate_keyword] accepts, and the candidate carries ["n/a"] for both
    the cost price and the margin percentage. *)
Theorem evaluate_keyword_unknown_cost (w : world) (kw reg : string) (n : Z)
    (avg : Q) :
  services_return float_of_str w kw reg n avg None ->
  passes_filters n avg ->
  evaluate_keyword float_of_str w kw reg =
    Ok (Some {| keyword := kw;
                region := reg;
                sell_price := py_round avg 2;
                cost_price := NA;
                margin_pct := NA;
                ebay_listings := n |}).
Proof.
  intros Hs Hf. rewrite (evaluate_past_filters _ _ _ _ _ _ Hs Hf). reflexivity.
Qed.

(** C10. Past the price and listing filters and with a supplier quote of
    exactly 0.0, [evaluate_keyword] raises ([margin] is [None] and is
    compared with [MIN_MARGIN]): it neither accepts nor rejects. *)
Theorem evaluate_keyword_zero_cost_raises (w : world) (kw reg : string) (n : Z)
    (avg cost : Q) :
  services_return float_of_str w kw reg n avg (Some cost) ->
  passes_filters n avg ->
  (cost == 0)%Q ->
  evaluate_keyword float_of_str w kw reg = Raise TypeError.
Proof.
  intros Hs Hf Hz. rewrite (evaluate_past_filters _ _ _ _ _ _ Hs Hf).
  unfold margin_of. apply float_truthy_false_iff in Hz. rewrite Hz. reflexivity.
Qed.

End Scoring.

(** *** The scoring theorems at sample worlds *)


Lemma passes_filters_one_at_20 : passes_filters 1 20.
Proof. repeat split; discriminate. Defined.



Lemma evaluate_keyword_unknown_cost_witness :
  services_return decimal_literal world_no_credentials "lamp" "AU" 1 20 None
  /\ passes_filters 1 20
  /\ evaluate_keyword decimal_literal world_no_credentials "lamp" "AU" =
       Ok (Some {| keyword := "lamp"; region := "AU"; sell_price := 20;
                   cost_price := NA; margin_pct := NA; ebay_listings := 1 |}).
Proof.
  assert (Hs : services_return decimal_literal world_no_credentials
                 "lamp" "AU" 1 20 None).
  { exists "EBAY-AU". repeat split. }
  split; [exact Hs|]. split; [exact passes_filters_one_at_20|].
  exact (evaluate_keyword_unknown_cost decimal_literal world_no_credentials
           "lamp" "AU" 1 20%Q Hs passes_filters_one_at_20).
Defined.

Lemma evaluate_keyword_zero_cost_raises_witness :
  services_return decimal_literal world_free_supply "lamp" "AU" 1 20 (Some 0%Q)
  /\ passes_filters 1 20
  /\ (0 == 0)%Q
  /\ evaluate_keyword decimal_literal world_free_supply "lamp" "AU" = Raise TypeError.
Proof.
  assert (Hs : services_return decimal_literal world_free_supply
                 "lamp" "AU" 1 20 (Some 0%Q)).
  { exists "EBAY-AU". repeat split. }
  split; [exact Hs|]. split; [exact passes_filters_one_at_20|].
  split; [reflexivity|].
  exact (evaluate_keyword_zero_cost_raises decimal_literal world_free_supply
           "lamp" "AU" 1 20%Q 0%Q Hs passes_filters_one_at_20 (Qeq_refl 0)).
Defined.

(** ** The marketplace: [ebay_search_stats] *)

Section Marketplace.

Variable float_of_str : string -> option Q.








End Marketplace.

(** *** The marketplace theorems at sample worlds *)




(** ** The trend provider: [get_trending_keywords] *)

Lemma filter_filter {A : Type} (p q : A -> bool) (l : list A) :
  filter p (filter q l) = filter (fun y => q y && p y) l.
Proof.
  induction l as [|a l IH]; [reflexivity|].
  cbn [filter]. destruct (q a); cbn [filter andb]; [|exact IH].
  destruct (p a); rewrite IH; reflexivity.
Qed.

Lemma firstn_length_app {A : Type} (l l' : list A) :
  firstn (List.length l) (l ++ l') = l.
Proof.
  rewrite <- (Nat.add_0_r (List.length l)), firstn_app_2.
  cbn [firstn]. apply app_nil_r.
Qed.

Lemma NoDup_firstn {A : Type} (n : nat) (l : list A) :
  NoDup l -> NoDup (firstn n l).
Proof.
  intros H. rewrite <- (firstn_skipn n l) in H.
  exact (NoDup_app_remove_r _ _ H).
Qed.

Lemma NoDup_first_occurrences (l : list string) : NoDup (first_occurrences l).
Proof.
  induction l as [|x r IH]; cbn [first_occurrences]; constructor.
  - intros Hin. apply filter_In in Hin as [_ Hne].
    rewrite String.eqb_refl in Hne. discriminate.
  - apply NoDup_filter. exact IH.
Qed.

Lemma str_in_snoc (y kw : string) (seen : list string) :
  str_in y (seen ++ [kw]) = str_in y seen || String.eqb y kw.
Proof.
  unfold str_in. rewrite existsb_app. cbn [existsb].
  rewrite orb_false_r. reflexivity.
Qed.

(** The loop, entered below the cap, yields the first [top_n] of: what was
    seen, then the new non-empty keywords at their first occurrence. *)
Lemma collect_keywords_firstn (kws seen : list string) (top_n : Z) :
  Z.of_nat (List.length seen) < top_n ->
  collect_keywords kws seen top_n =
    firstn (Z.to_nat top_n)
      (seen ++ filter (fun y => negb (str_in y seen))
                  (first_occurrences (filter str_truthy kws))).
Proof.
  revert seen. induction kws as [|kw rest IH]; intros seen Hlt.
  - cbn [collect_keywords filter first_occurrences]. rewrite app_nil_r.
    symmetry. apply firstn_all2. lia.
  - cbn [collect_keywords filter].
    assert (Hcap : (Z.of_nat (List.length seen) >=? top_n) = false).
    { rewrite Z.geb_leb. apply Z.leb_gt. exact Hlt. }
    destruct (str_truthy kw) eqn:Ht; cbn [andb].
    + cbn [first_occurrences filter].
      destruct (str_in kw seen) eqn:Hin; cbn [negb].
      * rewrite Hcap, (IH seen Hlt), filter_filter.
        do 2 f_equal. apply filter_ext_in. intros y _.
        destruct (String.eqb y kw) eqn:E; cbn [negb andb]; [|reflexivity].
        apply String.eqb_eq in E. subst y. rewrite Hin. reflexivity.
      * rewrite filter_filter.
        assert (Hsnoc : forall l, seen ++ kw :: l = (seen ++ [kw]) ++ l)
          by (intros l; rewrite <- app_assoc; reflexivity).
        rewrite (Hsnoc (filter _ _)).
        destruct (Z.of_nat (List.length (seen ++ [kw])) >=? top_n) eqn:Hfull.
        -- rewrite Z.geb_leb in Hfull. apply Z.leb_le in Hfull.
           rewrite length_app in Hfull. cbn [List.length] in Hfull.
           replace (Z.to_nat top_n) with (List.length (seen ++ [kw]))
             by (rewrite length_app; cbn [List.length]; lia).
           symmetry. apply firstn_length_app.
        -- rewrite Z.geb_leb in Hfull. apply Z.leb_gt in Hfull.
           rewrite (IH (seen ++ [kw]) Hfull).
           do 2 f_equal. apply filter_ext. intros y.
           rewrite str_in_snoc, negb_orb. apply andb_comm.
    + rewrite Hcap. exact (IH seen Hlt).
Qed.

(** X1. For a cap of at least one, [get_trending_keywords] returns the first
    [top_n] distinct non-empty keywords of the feed in first-seen order. *)
Lemma get_trending_keywords_capped (w : world) (reg : string) (top_n : Z)
    (kws : list string) :
  1 <= top_n ->
  fetch_daily_trends w reg = Ok kws ->
  exists r,
    get_trending_keywords w reg top_n = Ok r
    /\ r = firstn (Z.to_nat top_n) (first_occurrences (filter str_truthy kws))
    /\ NoDup r
    /\ Z.of_nat (List.length r) <= top_n.
Proof.
  intros Hn Hf. unfold get_trending_keywords. rewrite Hf. cbn [bind].
  rewrite collect_keywords_firstn by (cbn; lia). cbn [app].
  rewrite (filter_ext _ (fun _ => true)) by reflexivity.
  assert (Hall : forall l : list string, filter (fun _ => true) l = l).
  { induction l as [|a l IHl]; [reflexivity|]. cbn. rewrite IHl. reflexivity. }
  rewrite Hall. eexists. split; [reflexivity|]. split; [reflexivity|]. split.
  - apply NoDup_firstn, NoDup_first_occurrences.
  - pose proof (firstn_le_length (Z.to_nat top_n)
                  (first_occurrences (filter str_truthy kws))). lia.
Qed.

(** C8 at a cap of zero: the cap is tested after the first keyword has
    been appended, so one keyword is returned. *)
Theorem get_trending_keywords_cap_zero :
  get_trending_keywords world_margin_50 "AU" 0 = Ok ["lamp"]
  /\ ~ Z.of_nat (List.length ["lamp"]) <= 0.
Proof.
  split; [reflexivity | cbn; lia].
Qed.

(** ** The supplier: [aliexpress_lowest_price] *)

Section Supplier.

Variable float_of_str : string -> option Q.

(** X22. The failures the function absorbs: without both credentials it
    returns [None] whatever the network would answer, and with them a failed
    request and a response without a [success] field give [None]. *)
Lemma aliexpress_absorbed_failures (w : world) (kw : string) :
  (env_truthy (getenv w "ALIEXPRESS_APP_KEY")
   && env_truthy (getenv w "ALIEXPRESS_TRACKING_ID") = false ->
     aliexpress_lowest_price float_of_str w kw = Ok None)
  /\ (forall ak tid,
        getenv w "ALIEXPRESS_APP_KEY" = Some ak ->
        getenv w "ALIEXPRESS_TRACKING_ID" = Some tid ->
        (http_get w (aliexpress_url ak) (aliexpress_params kw tid) = Failed ->
           aliexpress_lowest_price float_of_str w kw = Ok None)
        /\ (forall flds,
              http_get w (aliexpress_url ak) (aliexpress_params kw tid)
                = Body (Some (JObj flds)) ->
              lookup "success" flds = None ->
              aliexpress_lowest_price float_of_str w kw = Ok None)).
Proof.
  unfold aliexpress_lowest_price. split.
  - destruct (getenv w "ALIEXPRESS_APP_KEY") as [ak|];
      destruct (getenv w "ALIEXPRESS_TRACKING_ID") as [tid|];
      cbn [env_truthy]; try (intros _; reflexivity).
    intros ->. reflexivity.
  - intros ak tid -> ->. split.
    + intros ->. destruct (str_truthy ak && str_truthy tid); reflexivity.
    + intros flds -> Hs. destruct (str_truthy ak && str_truthy tid);
        [|reflexivity].
      cbn [negb]. unfold lowest_of_body. cbn [py_get bind]. rewrite Hs.
      reflexivity.
Qed.

(** A price text that [float] cannot convert is skipped. *)
Lemma product_prices_skips_unparsable (flds : list (string * json)) (s : string)
    (rest : list json) (prices : list Q) :
  product_text (JObj flds) = Ok (JStr s) ->
  str_truthy s = true ->
  float_of_str (str_replace s "US $" EmptyString) = None ->
  product_prices float_of_str (JObj flds :: rest) prices
  = product_prices float_of_str rest prices.
Proof.
  intros Ht Hs Hf. cbn [product_prices]. rewrite Ht. cbn [bind truthy].
  rewrite Hs. cbn [py_replace bind]. unfold py_float_str. rewrite Hf.
  reflexivity.
Qed.

End Supplier.

(** C5 at two responses of the supplier: [r.json()] is called outside the
    [try] block, and [txt.replace] is guarded against [ValueError] only, so
    both exceptions reach the caller. *)
Theorem aliexpress_lowest_price_raises :
  aliexpress_lowest_price decimal_literal world_undecodable_quote "lamp"
    = Raise JSONDecodeError
  /\ aliexpress_lowest_price decimal_literal world_numeric_quote "lamp"
     = Raise AttributeError.
Proof.
  split; reflexivity.
Qed.

(** ** Discovery: [discover_products] *)

Section Discovery.

Variable float_of_str : string -> option Q.

Lemma try_keyword_total (w : world) (reg kw : string) (rows : list candidate) :
  try_keyword float_of_str w reg kw rows = Ok (rows ++ accepted_from float_of_str w reg [kw]).
Proof.
  unfold try_keyword, accepted_from. cbn [flat_map].
  destruct (evaluate_keyword float_of_str w kw reg) as [[c|]|e];
    cbn [bind try_except any_Exception]; rewrite ?app_nil_r; reflexivity.
Qed.

(** The keyword loop never raises and appends exactly the accepted
    candidates. *)
Lemma keyword_loop_total (w : world) (reg : string) (kws : list string)
    (rows : list candidate) :
  keyword_loop float_of_str w reg kws rows = Ok (rows ++ accepted_from float_of_str w reg kws).
Proof.
  revert rows. induction kws as [|kw rest IH]; intros rows.
  - cbn. rewrite app_nil_r. reflexivity.
  - cbn [keyword_loop]. rewrite try_keyword_total. cbn [bind].
    rewrite IH, <- app_assoc. f_equal. f_equal.
    unfold accepted_from. cbn [flat_map]. rewrite app_nil_r. reflexivity.
Qed.

Lemma accepted_from_app (w : world) (reg : string) (pre post : list string) :
  accepted_from float_of_str w reg (pre ++ post)
  = accepted_from float_of_str w reg pre ++ accepted_from float_of_str w reg post.
Proof.
  unfold accepted_from. apply flat_map_app.
Qed.

(** C9. Given the keywords of the three regions, [discover_products] returns
    (it does not raise) exactly the candidates accepted region by region and
    keyword by keyword; a keyword whose evaluation raises contributes no
    candidate and the keywords before and after it contribute theirs. *)
Theorem discover_products_skips_failing_keyword (w : world)
    (au uk us : list string) :
  get_trending_keywords w "AU" TOP_N_TRENDS = Ok au ->
  get_trending_keywords w "UK" TOP_N_TRENDS = Ok uk ->
  get_trending_keywords w "US" TOP_N_TRENDS = Ok us ->
  discover_products float_of_str w
    = Ok (accepted_from float_of_str w "AU" au ++ accepted_from float_of_str w "UK" uk
          ++ accepted_from float_of_str w "US" us)
  /\ (forall reg pre kw post e,
        evaluate_keyword float_of_str w kw reg = Raise e ->
        accepted_from float_of_str w reg (pre ++ kw :: post)
        = accepted_from float_of_str w reg pre ++ accepted_from float_of_str w reg post).
Proof.
  intros Hau Huk Hus. split.
  - unfold discover_products. cbn [map fst GOOGLE_GEOS region_loop].
    rewrite Hau. cbn [bind]. rewrite keyword_loop_total. cbn [bind app].
    rewrite Huk. cbn [bind]. rewrite keyword_loop_total. cbn [bind].
    rewrite Hus. cbn [bind]. rewrite keyword_loop_total. cbn [bind].
    rewrite <- app_assoc. reflexivity.
  - intros reg pre kw post e He.
    rewrite accepted_from_app. f_equal.
    unfold accepted_from. cbn [flat_map]. rewrite He. reflexivity.
Qed.

End Discovery.

Lemma discover_products_skips_failing_keyword_witness :
  evaluate_keyword decimal_literal world_one_outage "jam" "AU"
    = Raise RequestException
  /\ discover_products decimal_literal world_one_outage
     = Ok [ {| keyword := "mug"; region := "AU"; sell_price := 20;
               cost_price := Num 10; margin_pct := Num 50; ebay_listings := 1 |};
            {| keyword := "lamp"; region := "AU"; sell_price := 20;
               cost_price := Num 10; margin_pct := Num 50; ebay_listings := 1 |} ].
Proof.
  split; [reflexivity|].
  exact (proj1 (discover_products_skips_failing_keyword decimal_literal
                  world_one_outage ["mug"; "jam"; "lamp"] [] []
                  eq_refl eq_refl eq_refl)).
Defined.

(** ** The report: sorting by margin *)

Lemma insert_desc_perm (c : candidate) (s s' : list candidate) :
  insert_desc c s = Ok s' -> Permutation (c :: s) s'.
Proof.
  revert s'. induction s as [|d rest IH]; intros s'; cbn [insert_desc].
  - intros H. injection H as <-. apply Permutation_refl.
  - destruct (cell_lt (margin_pct d) (margin_pct c)) as [[|]|e]; cbn [bind];
      try discriminate.
    + intros H. injection H as <-. apply Permutation_refl.
    + destruct (insert_desc c rest) as [rest'|e]; cbn [bind]; [|discriminate].
      intros H. injection H as <-.
      apply perm_trans with (d :: c :: rest); [apply perm_swap|].
      apply perm_skip, IH. reflexivity.
Qed.

Lemma sort_values_desc_perm (rows s : list candidate) :
  sort_values_desc rows = Ok s -> Permutation rows s.
Proof.
  revert s. induction rows as [|c rest IH]; intros s; cbn [sort_values_desc].
  - intros H. injection H as <-. constructor.
  - destruct (sort_values_desc rest) as [s1|e]; cbn [bind]; [|discriminate].
    intros H. apply insert_desc_perm in H.
    apply perm_trans with (c :: s1); [|exact H].
    apply perm_skip, IH. reflexivity.
Qed.

Lemma insert_desc_raises (c : candidate) (s : list candidate) (e : exn) :
  insert_desc c s = Raise e -> e = TypeError.
Proof.
  induction s as [|d rest IH]; cbn [insert_desc]; [discriminate|].
  destruct (margin_pct d), (margin_pct c); cbn [cell_lt bind];
    try (intros H; injection H as <-; reflexivity).
  - destruct (Qltb x x0); [discriminate|].
    destruct (insert_desc c rest); cbn [bind]; [discriminate|].
    intros H. injection H as <-. apply IH. reflexivity.
  - destruct (insert_desc c rest); cbn [bind]; [discriminate|].
    intros H. injection H as <-. apply IH. reflexivity.
Qed.

Lemma sort_values_desc_raises (rows : list candidate) (e : exn) :
  sort_values_desc rows = Raise e -> e = TypeError.
Proof.
  induction rows as [|c rest IH]; cbn [sort_values_desc]; [discriminate|].
  destruct (sort_values_desc rest) as [s1|e1]; cbn [bind].
  - apply insert_desc_raises.
  - intros H. injection H as <-. apply IH. reflexivity.
Qed.

(** The sort returns only when the column holds cells of one kind. *)
Lemma sort_values_desc_uniform (rows s : list candidate) :
  sort_values_desc rows = Ok s -> Forall numeric rows \/ Forall unknown rows.
Proof.
  revert s. induction rows as [|c rest IH]; intros s; cbn [sort_values_desc].
  - intros _. left. constructor.
  - destruct (sort_values_desc rest) as [s1|e] eqn:Hs1; cbn [bind];
      [|discriminate].
    pose proof (sort_values_desc_perm _ _ Hs1) as Hperm.
    specialize (IH s1 eq_refl).
    destruct s1 as [|d s1'].
    + apply Permutation_sym, Permutation_nil in Hperm. subst rest. intros _.
      destruct (margin_pct c) as [x|] eqn:Hc.
      * left. constructor; [exists x; exact Hc | constructor].
      * right. constructor; [exact Hc | constructor].
    + cbn [insert_desc].
      assert (Hd : In d rest).
      { apply (Permutation_in d (Permutation_sym Hperm)). left. reflexivity. }
      destruct (margin_pct d) as [y|] eqn:Hmd;
        destruct (margin_pct c) as [x|] eqn:Hmc; cbn [cell_lt bind];
        try discriminate; intros _.
      * left. destruct IH as [IH|IH].
        -- constructor; [exists x; exact Hmc | exact IH].
        -- rewrite Forall_forall in IH. specialize (IH d Hd).
           unfold unknown in IH. congruence.
      * right. destruct IH as [IH|IH].
        -- rewrite Forall_forall in IH. destruct (IH d Hd) as [z Hz].
           congruence.
        -- constructor; [exact Hmc | exact IH].
Qed.

(** A column that mixes numbers with ["n/a"] cannot be sorted. *)
Lemma sort_values_desc_mixed (rows : list candidate) (c d : candidate) :
  In c rows -> unknown c -> In d rows -> numeric d ->
  sort_values_desc rows = Raise TypeError.
Proof.
  intros Hc Hcu Hd [x Hdn].
  destruct (sort_values_desc rows) as [s|e] eqn:Hs.
  - exfalso. destruct (sort_values_desc_uniform _ _ Hs) as [H|H];
      rewrite Forall_forall in H.
    + destruct (H c Hc) as [z Hz]. unfold unknown in Hcu. congruence.
    + specialize (H d Hd). unfold unknown in H. congruence.
  - f_equal. exact (sort_values_desc_raises _ _ Hs).
Qed.

Lemma insert_desc_sorted (c : candidate) (s : list candidate) :
  numeric c -> Forall numeric s -> Sorted margin_ge s ->
  exists s',
    insert_desc c s = Ok s'
    /\ Sorted margin_ge s'
    /\ (forall a, margin_ge a c -> HdRel margin_ge a s -> HdRel margin_ge a s').
Proof.
  intros [x Hx] Hnum Hsorted.
  induction s as [|d rest IH]; cbn [insert_desc].
  - eexists. split; [reflexivity|]. split.
    + constructor; constructor.
    + intros a Ha _. constructor. exact Ha.
  - apply Forall_cons_iff in Hnum as [[y Hy] Hnum].
    apply Sorted_inv in Hsorted as [Hsorted Hhd].
    rewrite Hy, Hx. cbn [cell_lt bind].
    destruct (Qltb y x) eqn:Hlt.
    + eexists. split; [reflexivity|]. split.
      * constructor; [constructor; assumption|]. constructor.
        unfold margin_ge. rewrite Hx, Hy.
        apply Qlt_le_weak, Qltb_true_iff. exact Hlt.
      * intros a Ha _. constructor. exact Ha.
    + destruct (IH Hnum Hsorted) as (rest' & Hins & Hs' & Htransfer).
      rewrite Hins. cbn [bind]. eexists. split; [reflexivity|]. split.
      * constructor; [exact Hs'|]. apply Htransfer; [|exact Hhd].
        unfold margin_ge. rewrite Hx, Hy. apply Qltb_false_iff. exact Hlt.
      * intros a _ Ha. apply HdRel_inv in Ha. constructor. exact Ha.
Qed.

(** A column of numbers is sorted in descending order. *)
Lemma sort_values_desc_numeric (rows : list candidate) :
  Forall numeric rows ->
  exists s,
    sort_values_desc rows = Ok s /\ Permutation rows s /\ Sorted margin_ge s.
Proof.
  induction rows as [|c rest IH]; intros Hnum; cbn [sort_values_desc].
  - exists []. repeat split; constructor.
  - apply Forall_cons_iff in Hnum as [Hc Hnum].
    destruct (IH Hnum) as (s1 & Hs1 & Hperm & Hsorted).
    rewrite Hs1. cbn [bind].
    destruct (insert_desc_sorted c s1 Hc (Permutation_Forall Hperm Hnum) Hsorted)
      as (s & Hs & Hsorted' & _).
    exists s. split; [exact Hs|]. split; [|exact Hsorted'].
    apply perm_trans with (c :: s1); [apply perm_skip; exact Hperm|].
    apply insert_desc_perm. exact Hs.
Qed.

(** C4 at margins [50.0, "n/a", 80.0]: the sort compares ["n/a"] with a
    number and raises, so no report is written. *)
Theorem written_report_mixed_margins_raises :
  (exists rows,
      discover_products decimal_literal world_mixed_margins = Ok rows
      /\ map margin_pct rows = [Num 50; NA; Num 80])
  /\ written_report decimal_literal world_mixed_margins = Raise TypeError.
Proof.
  split; [eexists; split; reflexivity | reflexivity].
Qed.

(** * Further properties of the code *)

(** ** The trend provider (lines 49-51 and 69-99) *)

(** The three region tables know the same regions. *)
Lemma region_tables_agree (reg : string) :
  (lookup reg GOOGLE_GEOS = None /\ lookup reg GOOGLE_PN = None
   /\ lookup reg EBAY_GLOBAL_IDS = None)
  \/ (In reg ["AU"; "UK"; "US"]
      /\ exists geo pn gid,
           lookup reg GOOGLE_GEOS = Some geo /\ lookup reg GOOGLE_PN = Some pn
           /\ lookup reg EBAY_GLOBAL_IDS = Some gid).
Proof.
  unfold GOOGLE_GEOS, GOOGLE_PN, EBAY_GLOBAL_IDS. cbn [lookup].
  destruct (String.eqb reg "AU") eqn:Eau.
  { apply String.eqb_eq in Eau. right. split; [left; auto|].
    do 3 eexists. repeat split. }
  destruct (String.eqb reg "UK") eqn:Euk.
  { apply String.eqb_eq in Euk. right. split; [right; left; auto|].
    do 3 eexists. repeat split. }
  destruct (String.eqb reg "US") eqn:Eus.
  { apply String.eqb_eq in Eus. right. split; [right; right; left; auto|].
    do 3 eexists. repeat split. }
  left. repeat split.
Qed.

Lemma fallback_never_raises (m : exc (list string)) :
  exists kws, try_except m any_Exception (fun _ => Ok []) = Ok kws.
Proof.
  destruct m as [kws|e]; eexists; reflexivity.
Qed.

(** X3. [fetch_daily_trends] raises exactly when the region is in no table
    ([KeyError]) or the primary attempt (building the client, then
    [daily_trends] and the extraction of the queries) raises an exception
    outside the four caught classes; a caught failure and a failing
    fallback end in a list. *)
Theorem fetch_daily_trends_raises_iff (w : world) (reg : string) (e : exn) :
  fetch_daily_trends w reg = Raise e <->
    (lookup reg GOOGLE_GEOS = None /\ e = KeyError)
    \/ (exists geo,
          lookup reg GOOGLE_GEOS = Some geo
          /\ caught_by_daily_trends e = false
          /\ (new_trend_req w = Raise e
              \/ (new_trend_req w = Ok true /\ daily_trends w geo = Raise e))).
Proof.
  unfold fetch_daily_trends, table_getitem.
  destruct (region_tables_agree reg)
    as [(Hg & Hp & _) | (_ & geo & pn & gid & Hg & Hp & _)];
    rewrite Hg, Hp; cbn [bind].
  - split.
    + intros H. injection H as <-. left. split; reflexivity.
    + intros [[_ ->] | (geo & Hgeo & _)]; [reflexivity | discriminate].
  - destruct (fallback_never_raises (tr <- new_trend_req w;; trending_searches w))
      as [fb Hfb].
    rewrite Hfb.
    destruct (new_trend_req w) as [[|]|e1] eqn:Hreq; cbn [bind].
    + destruct (daily_trends w geo) as [kws|e2] eqn:Hd; cbn [bind].
      * split; [discriminate|].
        intros [[H _] | (geo' & Hgeo & _ & [H | [_ H]])]; try discriminate.
        injection Hgeo as <-. rewrite Hd in H. discriminate.
      * destruct (caught_by_daily_trends e2) eqn:Hc.
        -- split; [discriminate|].
           intros [[H _] | (geo' & Hgeo & Hc' & [H | [_ H]])]; try discriminate.
           injection Hgeo as <-. rewrite Hd in H. injection H as <-. congruence.
        -- split.
           ++ intros H. injection H as <-. right. exists geo.
              split; [reflexivity|]. split; [exact Hc|]. right.
              split; [reflexivity | exact Hd].
           ++ intros [[H _] | (geo' & Hgeo & _ & [H | [_ H]])]; try discriminate.
              injection Hgeo as <-. rewrite Hd in H. injection H as <-. reflexivity.
    + split; [discriminate|].
      intros [[H _] | (geo' & _ & _ & [H | [H _]])]; discriminate.
    + destruct (caught_by_daily_trends e1) eqn:Hc.
      * split; [discriminate|].
        intros [[H _] | (geo' & _ & Hc' & [H | [H _]])]; try discriminate.
        injection H as <-. congruence.
      * split.
        -- intros H. injection H as <-. right. exists geo.
           split; [reflexivity|]. split; [exact Hc|]. left. reflexivity.
        -- intros [[H _] | (geo' & _ & _ & [H | [H _]])]; try discriminate.
           injection H as <-. reflexivity.
Qed.

Lemma In_first_occurrences (x : string) (l : list string) :
  In x (first_occurrences l) -> In x l.
Proof.
  induction l as [|y r IH]; cbn [first_occurrences]; [tauto|].
  intros [H | H]; [left; exact H|].
  right. apply IH. apply filter_In in H. tauto.
Qed.

(** X2. Whatever the cap, the keywords returned are distinct, non-empty and
    come from the feed, and there are at most [max top_n 1] of them. *)
Theorem get_trending_keywords_any_cap (w : world) (reg : string) (top_n : Z)
    (kws : list string) :
  fetch_daily_trends w reg = Ok kws ->
  exists r,
    get_trending_keywords w reg top_n = Ok r
    /\ NoDup r
    /\ Forall (fun kw => str_truthy kw = true /\ In kw kws) r
    /\ Z.of_nat (List.length r) <= Z.max top_n 1.
Proof.
  intros Hf. unfold get_trending_keywords. rewrite Hf. cbn [bind].
  eexists. split; [reflexivity|].
  destruct (Z.le_gt_cases 1 top_n) as [Hcap | Hcap].
  - rewrite collect_keywords_firstn by (cbn; lia). cbn [app].
    set (l := filter _ (first_occurrences _)).
    assert (Hl : NoDup l /\ Forall (fun kw => str_truthy kw = true /\ In kw kws) l).
    { split.
      - apply NoDup_filter, NoDup_first_occurrences.
      - apply Forall_forall. intros x Hx. subst l.
        apply filter_In in Hx as [Hx _]. apply In_first_occurrences in Hx.
        apply filter_In in Hx. tauto. }
    destruct Hl as [Hnd Hall]. split; [apply NoDup_firstn; exact Hnd|]. split.
    + apply Forall_forall. intros x Hx. rewrite Forall_forall in Hall.
      apply Hall. rewrite <- (firstn_skipn (Z.to_nat top_n) l).
      apply in_or_app. left. exact Hx.
    + pose proof (firstn_le_length (Z.to_nat top_n) l). lia.
  - destruct kws as [|kw rest]; cbn [collect_keywords].
    + split; [constructor|]. split; [constructor | cbn; lia].
    + cbn [str_in existsb negb]. rewrite andb_true_r.
      destruct (str_truthy kw) eqn:Ht; cbn [app].
      * replace (Z.of_nat (List.length [kw]) >=? top_n) with true
          by (symmetry; rewrite Z.geb_leb; apply Z.leb_le; cbn; lia).
        split; [constructor; [intros []|constructor]|]. split.
        -- constructor; [|constructor]. split; [exact Ht | left; reflexivity].
        -- cbn. lia.
      * replace (Z.of_nat (@List.length string []) >=? top_n) with true
          by (symmetry; rewrite Z.geb_leb; apply Z.leb_le; cbn; lia).
        split; [constructor|]. split; [constructor | cbn; lia].
Qed.

Lemma get_trending_keywords_capped_witness :
  get_trending_keywords world_noisy_feed "AU" 2 = Ok ["mug"; "jam"].
Proof.
  destruct (get_trending_keywords_capped world_noisy_feed "AU" 2
              ["mug"; EmptyString; "mug"; "jam"; "lamp"] ltac:(lia) eq_refl)
    as (r & Hr & Heq & _).
  rewrite Hr, Heq. reflexivity.
Defined.

Lemma get_trending_keywords_any_cap_witness :
  exists r,
    get_trending_keywords world_noisy_feed "AU" (-3) = Ok r
    /\ Z.of_nat (List.length r) <= 1.
Proof.
  destruct (get_trending_keywords_any_cap world_noisy_feed "AU" (-3)
              ["mug"; EmptyString; "mug"; "jam"; "lamp"] eq_refl)
    as (r & Hr & _ & _ & Hlen).
  exists r. split; [exact Hr | exact Hlen].
Defined.

Lemma fetch_daily_trends_raises_iff_witness :
  fetch_daily_trends world_primary_malformed "UK" = Raise KeyError
  /\ fetch_daily_trends world_primary_down "UK" = Ok ["tea"; "tea"; "pot"].
Proof.
  split; [|reflexivity].
  apply (proj2 (fetch_daily_trends_raises_iff world_primary_malformed "UK" KeyError)).
  right. exists "GB". split; [reflexivity|]. split; [reflexivity|].
  right. split; reflexivity.
Defined.

(** ** Discovery (lines 177-189) *)

Section DiscoveryFacts.

Variable float_of_str : string -> option Q.

(** The run as a function of the three keyword lists. *)
Lemma discover_products_by_region (w : world) :
  discover_products float_of_str w =
    (au <- get_trending_keywords w "AU" TOP_N_TRENDS ;;
     uk <- get_trending_keywords w "UK" TOP_N_TRENDS ;;
     us <- get_trending_keywords w "US" TOP_N_TRENDS ;;
     Ok (accepted_from float_of_str w "AU" au
         ++ accepted_from float_of_str w "UK" uk
         ++ accepted_from float_of_str w "US" us)).
Proof.
  unfold discover_products. cbn [map fst GOOGLE_GEOS region_loop].
  destruct (get_trending_keywords w "AU" TOP_N_TRENDS) as [au|e]; cbn [bind];
    [|reflexivity].
  rewrite keyword_loop_total. cbn [bind app].
  destruct (get_trending_keywords w "UK" TOP_N_TRENDS) as [uk|e]; cbn [bind];
    [|reflexivity].
  rewrite keyword_loop_total. cbn [bind].
  destruct (get_trending_keywords w "US" TOP_N_TRENDS) as [us|e]; cbn [bind];
    [|reflexivity].
  rewrite keyword_loop_total. cbn [bind]. rewrite <- app_assoc. reflexivity.
Qed.

(** X4. The run raises exactly when the trend provider raises for a region,
    with the exception of the first such region; the candidates collected
    in the regions before it are lost with the run. *)
Theorem discover_products_raises_iff (w : world) (e : exn) :
  discover_products float_of_str w = Raise e <->
    get_trending_keywords w "AU" TOP_N_TRENDS = Raise e
    \/ (exists au,
          get_trending_keywords w "AU" TOP_N_TRENDS = Ok au
          /\ get_trending_keywords w "UK" TOP_N_TRENDS = Raise e)
    \/ (exists au uk,
          get_trending_keywords w "AU" TOP_N_TRENDS = Ok au
          /\ get_trending_keywords w "UK" TOP_N_TRENDS = Ok uk
          /\ get_trending_keywords w "US" TOP_N_TRENDS = Raise e).
Proof.
  rewrite discover_products_by_region.
  destruct (get_trending_keywords w "AU" TOP_N_TRENDS) as [au|e1]; cbn [bind].
  - destruct (get_trending_keywords w "UK" TOP_N_TRENDS) as [uk|e2]; cbn [bind].
    + destruct (get_trending_keywords w "US" TOP_N_TRENDS) as [us|e3]; cbn [bind].
      * split; [discriminate|].
        intros [H | [(a & _ & H) | (a & u & _ & _ & H)]]; discriminate.
      * split.
        -- intros H. right. right. exists au, uk. repeat split. congruence.
        -- intros [H | [(a & _ & H) | (a & u & _ & _ & H)]];
             try discriminate; congruence.
    + split.
      * intros H. right. left. exists au. split; [reflexivity | congruence].
      * intros [H | [(a & _ & H) | (a & u & _ & H & _)]];
          try discriminate; congruence.
  - split.
    + intros H. left. congruence.
    + intros [H | [(a & H & _) | (a & u & H & _)]]; try discriminate; congruence.
Qed.



Lemma collect_keywords_bound (kws : list string) (top_n : Z) :
  1 <= top_n -> Z.of_nat (List.length (collect_keywords kws [] top_n)) <= top_n.
Proof.
  intros H. rewrite collect_keywords_firstn by (cbn; lia).
  pose proof (firstn_le_length (Z.to_nat top_n)
    ([] ++ filter (fun y => negb (str_in y []))
                  (first_occurrences (filter str_truthy kws)))). lia.
Qed.

Lemma get_trending_keywords_bound (w : world) (reg : string) (kws : list string) :
  get_trending_keywords w reg TOP_N_TRENDS = Ok kws ->
  Z.of_nat (List.length kws) <= TOP_N_TRENDS.
Proof.
  unfold get_trending_keywords.
  destruct (fetch_daily_trends w reg) as [feed|e]; cbn [bind]; [|discriminate].
  intros H. injection H as <-. apply collect_keywords_bound.
  unfold TOP_N_TRENDS. lia.
Qed.


End DiscoveryFacts.

Lemma discover_products_raises_iff_witness :
  discover_products decimal_literal world_primary_malformed = Raise KeyError.
Proof.
  apply (proj2 (discover_products_raises_iff decimal_literal
                  world_primary_malformed KeyError)).
  right. left. exists ["lamp"]. split; reflexivity.
Defined.


(** ** The marketplace (lines 103-129) *)

Section MarketplaceFacts.

Variable float_of_str : string -> option Q.

Lemma ebay_search_stats_of_prices (w : world) (kw gid : string) (st : stats) :
  ebay_search_stats float_of_str w kw gid = Ok st ->
  exists prices, st = stats_of_prices prices.
Proof.
  unfold ebay_search_stats.
  destruct (http_get w ebay_url (ebay_params w kw gid)) as [|[body|]];
    try discriminate.
  unfold stats_of_body.
  destruct (response_items body) as [items|e]; cbn [bind]; [|discriminate].
  destruct (py_iter items) as [its|e]; cbn [bind]; [|discriminate].
  destruct (item_prices float_of_str its) as [prices|e]; cbn [bind];
    [|discriminate].
  intros H. injection H as <-. exists prices. reflexivity.
Qed.

(** X6. The statistics that [ebay_search_stats] returns have a count that
    is not negative, and the average is absent exactly when the count is
    zero. *)
Theorem ebay_search_stats_average_iff_count (w : world) (kw gid : string)
    (st : stats) :
  ebay_search_stats float_of_str w kw gid = Ok st ->
  0 <= count st /\ (avg_price st = None <-> count st = 0).
Proof.
  intros H. apply ebay_search_stats_of_prices in H as [prices ->].
  unfold stats_of_prices. cbn [count avg_price]. split; [lia|].
  destruct prices as [|p ps]; cbn [List.length].
  - split; reflexivity.
  - split; [discriminate | lia].
Qed.



(** X8. The defaults cover absent keys only. A failed request and a body
    that is not JSON raise; so does a body that is an array, an envelope
    that is present but empty ([IndexError]) and an envelope that is null
    ([TypeError]). *)
Theorem ebay_search_stats_hard_failures (w : world) (kw gid : string) :
  (http_get w ebay_url (ebay_params w kw gid) = Failed ->
     ebay_search_stats float_of_str w kw gid = Raise RequestException)
  /\ (http_get w ebay_url (ebay_params w kw gid) = Body None ->
        ebay_search_stats float_of_str w kw gid = Raise JSONDecodeError)
  /\ (forall l, ebay_replies w kw gid (JArr l) ->
        ebay_search_stats float_of_str w kw gid = Raise AttributeError)
  /\ (forall top, ebay_replies w kw gid (JObj top) ->
        (lookup "findItemsAdvancedResponse" top = Some (JArr []) ->
           ebay_search_stats float_of_str w kw gid = Raise IndexError)
        /\ (lookup "findItemsAdvancedResponse" top = Some JNull ->
              ebay_search_stats float_of_str w kw gid = Raise TypeError)).
Proof.
  unfold ebay_search_stats, ebay_replies.
  split; [intros ->; reflexivity|]. split; [intros ->; reflexivity|].
  split; [intros l ->; reflexivity|].
  intros top ->. unfold stats_of_body, response_items. cbn [py_get bind].
  split; intros ->; reflexivity.
Qed.

End MarketplaceFacts.

Lemma ebay_search_stats_average_iff_count_witness :
  exists st,
    ebay_search_stats decimal_literal world_two_listings "lamp" "EBAY-AU" = Ok st
    /\ 0 <= count st /\ (avg_price st = None <-> count st = 0).
Proof.
  eexists. split; [reflexivity|].
  exact (ebay_search_stats_average_iff_count decimal_literal world_two_listings
           "lamp" "EBAY-AU" _ eq_refl).
Defined.


Lemma ebay_search_stats_hard_failures_witness :
  ebay_search_stats decimal_literal world_empty_envelope "lamp" "EBAY-AU"
  = Raise IndexError.
Proof.
  exact (proj1 (proj2 (proj2 (proj2
           (ebay_search_stats_hard_failures decimal_literal world_empty_envelope
              "lamp" "EBAY-AU")))
           [("findItemsAdvancedResponse", JArr [])] eq_refl) eq_refl).
Defined.

(** ** The supplier (lines 133-153) *)

Section SupplierFacts.

Variable float_of_str : string -> option Q.

Lemma py_min_least (x : Q) (xs : list Q) :
  In (py_min x xs) (x :: xs) /\ Forall (fun y => (py_min x xs <= y)%Q) (x :: xs).
Proof.
  unfold py_min. revert x. induction xs as [|y xs IH]; intros x.
  - cbn. split; [left; reflexivity|]. constructor; [apply Qle_refl | constructor].
  - cbn [fold_left].
    set (m := if Qltb y x then y else x).
    destruct (IH m) as [Hin Hle].
    apply Forall_cons_iff in Hle as [Hm Hrest].
    assert (Hmx : (m <= x)%Q /\ (m <= y)%Q).
    { subst m. destruct (Qltb y x) eqn:E.
      - apply Qltb_true_iff in E. split; [apply Qlt_le_weak; exact E | apply Qle_refl].
      - apply Qltb_false_iff in E. split; [apply Qle_refl | exact E]. }
    destruct Hmx as [Hmx Hmy]. split.
    + destruct Hin as [Hin | Hin].
      * subst m. destruct (Qltb y x); rewrite <- Hin; cbn; tauto.
      * right. right. exact Hin.
    + constructor; [eapply Qle_trans; eassumption|].
      constructor; [eapply Qle_trans; eassumption | exact Hrest].
Qed.

(** X9. A quote returned by [aliexpress_lowest_price] is one of the prices
    parsed from the products of the response and no parsed price is below
    it. *)
Theorem aliexpress_lowest_price_is_least (w : world) (kw : string) (m : Q) :
  aliexpress_lowest_price float_of_str w kw = Ok (Some m) ->
  exists ak tid data result products prods prices,
    getenv w "ALIEXPRESS_APP_KEY" = Some ak
    /\ getenv w "ALIEXPRESS_TRACKING_ID" = Some tid
    /\ http_get w (aliexpress_url ak) (aliexpress_params kw tid) = Body (Some data)
    /\ py_get data "result" (JObj []) = Ok result
    /\ py_get result "products" (JArr []) = Ok products
    /\ py_iter products = Ok prods
    /\ product_prices float_of_str prods [] = Ok prices
    /\ In m prices
    /\ Forall (fun p => (m <= p)%Q) prices.
Proof.
  unfold aliexpress_lowest_price.
  destruct (getenv w "ALIEXPRESS_APP_KEY") as [ak|]; [|discriminate].
  destruct (getenv w "ALIEXPRESS_TRACKING_ID") as [tid|]; [|discriminate].
  destruct (negb (str_truthy ak && str_truthy tid)); [discriminate|].
  destruct (http_get w (aliexpress_url ak) (aliexpress_params kw tid))
    as [|[data|]] eqn:Hget; try discriminate.
  unfold lowest_of_body.
  destruct (py_get data "success" JNull) as [success|e]; cbn [bind];
    [|discriminate].
  destruct (negb (truthy success)); [discriminate|].
  destruct (py_get data "result" (JObj [])) as [result|e] eqn:Hres; cbn [bind];
    [|discriminate].
  destruct (py_get result "products" (JArr [])) as [products|e] eqn:Hprod;
    cbn [bind]; [|discriminate].
  destruct (py_iter products) as [prods|e] eqn:Hit; cbn [bind]; [|discriminate].
  destruct (product_prices float_of_str prods []) as [prices|e] eqn:Hpr;
    cbn [bind]; [|discriminate].
  destruct prices as [|p ps]; [discriminate|].
  intros H. injection H as <-.
  destruct (py_min_least p ps) as [Hin Hle].
  exists ak, tid, data, result, products, prods, (p :: ps).
  repeat split; try reflexivity; assumption.
Qed.

(** X10. On products whose price text is a string or is false, the loop
    never raises: it appends, product by product, the price parsed from the
    sale price, or from the original price when the sale price is false,
    and skips a text that [float] rejects. *)
Theorem product_prices_well_formed (prods : list json) (prices : list Q) :
  Forall text_or_nothing prods ->
  product_prices float_of_str prods prices
  = Ok (prices ++ flat_map (parsed_price float_of_str) prods).
Proof.
  intros H. revert prices.
  induction H as [|prod prods (v & Hv & Hshape) _ IH]; intros prices.
  - cbn. rewrite app_nil_r. reflexivity.
  - cbn [product_prices flat_map]. unfold parsed_price. rewrite Hv.
    cbn [bind]. destruct Hshape as [Hfalse | [s ->]].
    + rewrite Hfalse. rewrite IH. do 2 f_equal.
      destruct v as [| | |s| |]; try reflexivity.
      cbn [truthy] in Hfalse. rewrite Hfalse. reflexivity.
    + cbn [truthy]. destruct (str_truthy s); [|rewrite IH; reflexivity].
      cbn [py_replace bind]. unfold py_float_str.
      destruct (float_of_str (str_replace s "US $" EmptyString)) as [x|];
        cbn [bind try_except is_ValueError]; rewrite IH.
      * rewrite <- app_assoc. reflexivity.
      * reflexivity.
Qed.

Lemma replace_from_without_first (c : ascii) (old new t : string) :
  forallb (fun a => negb (Ascii.eqb a c)) (list_ascii_of_string t) = true ->
  replace_from (String c old) new t O = t.
Proof.
  induction t as [|a t IH]; [reflexivity|].
  cbn [list_ascii_of_string forallb]. intros H.
  apply andb_true_iff in H as [Ha Ht].
  cbn [replace_from drop_prefix].
  rewrite Ascii.eqb_sym. apply negb_true_iff in Ha. rewrite Ha.
  rewrite (IH Ht). reflexivity.
Qed.

(** X11. A price text made of the prefix ["US $"] and a rest without the
    letter U is cleaned to that rest, so the product contributes the number
    that [float] reads from the rest. *)
Theorem product_prices_currency_prefix (flds : list (string * json))
    (t : string) (x : Q) (rest : list json) (prices : list Q) :
  lookup "salePrice" flds = Some (JStr ("US $" ++ t)) ->
  no_U t = true ->
  float_of_str t = Some x ->
  str_replace ("US $" ++ t) "US $" EmptyString = t
  /\ product_prices float_of_str (JObj flds :: rest) prices
     = product_prices float_of_str rest (prices ++ [x]).
Proof.
  intros Hs Hu Hx.
  assert (E : str_replace ("US $" ++ t) "US $" EmptyString = t).
  { unfold str_replace. cbn [append replace_from drop_prefix Ascii.eqb Bool.eqb].
    cbn [String.length Nat.sub append].
    apply replace_from_without_first. exact Hu. }
  split; [exact E|].
  cbn [product_prices product_text py_get bind]. rewrite Hs.
  cbn [truthy str_truthy append bind py_replace].
  change (String "U" (String "S" (String " " (String "$" t))))
    with ("US $" ++ t)%string.
  rewrite E. unfold py_float_str. rewrite Hx. reflexivity.
Qed.

End SupplierFacts.

Lemma aliexpress_absorbed_failures_witness :
  aliexpress_lowest_price decimal_literal world_no_credentials "lamp" = Ok None.
Proof.
  exact (proj1 (aliexpress_absorbed_failures decimal_literal
                  world_no_credentials "lamp") eq_refl).
Defined.

Lemma aliexpress_lowest_price_is_least_witness :
  aliexpress_lowest_price decimal_literal world_four_products "lamp"
    = Ok (Some (16 # 5))
  /\ exists prices, In (16 # 5) prices /\ Forall (fun p => (16 # 5 <= p)%Q) prices.
Proof.
  split; [reflexivity|].
  destruct (aliexpress_lowest_price_is_least decimal_literal world_four_products
              "lamp" (16 # 5) eq_refl)
    as (_ & _ & _ & _ & _ & _ & prices & _ & _ & _ & _ & _ & _ & _ & Hin & Hle).
  exists prices. split; assumption.
Defined.

Lemma product_prices_well_formed_witness :
  product_prices decimal_literal
    [ JObj [("productTitle", JStr "bare")];
      JObj [("salePrice", JStr "call us")];
      JObj [("salePrice", JNull); ("originalPrice", JStr "US $7.50")];
      JObj [("salePrice", JStr "US $3.20"); ("originalPrice", JStr "US $9.00")] ]
    []
  = Ok [(15 # 2)%Q; (16 # 5)%Q].
Proof.
  rewrite product_prices_well_formed; [reflexivity|].
  repeat constructor;
    (eexists; split; [reflexivity|]);
    first [left; reflexivity | right; eexists; reflexivity].
Defined.

Lemma product_prices_currency_prefix_witness :
  str_replace "US $3.20" "US $" EmptyString = "3.20"
  /\ product_prices decimal_literal
       [JObj [("salePrice", JStr "US $3.20"); ("originalPrice", JStr "US $9.00")]]
       []
     = Ok [(16 # 5)%Q].
Proof.
  destruct (product_prices_currency_prefix decimal_literal
              [("salePrice", JStr "US $3.20"); ("originalPrice", JStr "US $9.00")]
              "3.20" (16 # 5) [] [] eq_refl eq_refl eq_refl) as [E H].
  split; [exact E | exact H].
Defined.

(** ** Scoring (lines 157-173) *)

Section ScoringFacts.

Variable float_of_str : string -> option Q.

Lemma filters_true (n : Z) (avg : Q) :
  negb (float_truthy avg) || Qgtb avg MAX_SELL_PRICE || (n >? MAX_LISTINGS) = true ->
  ~ passes_filters n avg.
Proof.
  intros H Hp. rewrite (filters_false _ _ Hp) in H. discriminate.
Qed.

Lemma passes_filters_dec (n : Z) (avg : Q) :
  passes_filters n avg \/ ~ passes_filters n avg.
Proof.
  destruct (negb (float_truthy avg) || Qgtb avg MAX_SELL_PRICE || (n >? MAX_LISTINGS))
    eqn:E.
  - right. apply filters_true. exact E.
  - left. apply filters_false_inv. exact E.
Qed.

(** With a quote that is a non-zero number, line 164 compares the margin. *)
Lemma margin_of_nonzero (avg c : Q) :
  ~ (c == 0)%Q -> margin_of avg (Some c) = Some ((avg - c) / avg)%Q.
Proof.
  intros H. unfold margin_of. apply float_truthy_true_iff in H. rewrite H.
  reflexivity.
Qed.


(** X13. [evaluate_keyword] raises [KeyError] for a region outside the
    tables; for a region of the tables it raises exactly when the
    marketplace raises, or the filters pass and either the supplier raises
    or its quote is zero ([TypeError]). *)
Theorem evaluate_keyword_raises_iff (w : world) (kw reg : string) (e : exn) :
  (lookup reg EBAY_GLOBAL_IDS = None ->
     evaluate_keyword float_of_str w kw reg = Raise KeyError)
  /\ (forall gid,
        lookup reg EBAY_GLOBAL_IDS = Some gid ->
        (evaluate_keyword float_of_str w kw reg = Raise e <->
           ebay_search_stats float_of_str w kw gid = Raise e
           \/ (exists n avg,
                 ebay_search_stats float_of_str w kw gid
                   = Ok {| count := n; avg_price := Some avg |}
                 /\ passes_filters n avg
                 /\ (aliexpress_lowest_price float_of_str w kw = Raise e
                     \/ (exists c,
                           aliexpress_lowest_price float_of_str w kw = Ok (Some c)
                           /\ (c == 0)%Q /\ e = TypeError))))).
Proof.
  unfold evaluate_keyword, table_getitem. split.
  { intros ->. reflexivity. }
  intros gid ->. cbn [bind].
  destruct (ebay_search_stats float_of_str w kw gid) as [[n [avg|]]|e1];
    cbn [bind avg_price count].
  - destruct (negb (float_truthy avg) || Qgtb avg MAX_SELL_PRICE
              || (n >? MAX_LISTINGS)) eqn:Hf.
    { apply filters_true in Hf. split; [discriminate|].
      intros [H | (n' & a & Hst & Hp & _)]; [discriminate|].
      injection Hst as <- <-. contradiction. }
    apply filters_false_inv in Hf.
    destruct (aliexpress_lowest_price float_of_str w kw) as [[c|]|e2];
      cbn [bind].
    + destruct (float_truthy c) eqn:Hc.
      * pose proof Hc as Hnz. apply float_truthy_true_iff in Hnz.
        rewrite (margin_of_nonzero _ _ Hnz). cbn [below_min_margin bind].
        split.
        -- destruct (Qltb ((avg - c) / avg) MIN_MARGIN); discriminate.
        -- intros [H | (n' & a & _ & _ & [H | (c' & Hc' & Hz & _)])];
             try discriminate.
           injection Hc' as <-. contradiction.
      * unfold margin_of. rewrite Hc. cbn [below_min_margin bind].
        apply float_truthy_false_iff in Hc. split.
        -- intros H. injection H as <-. right. exists n, avg.
           split; [reflexivity|]. split; [exact Hf|]. right. exists c.
           repeat split. exact Hc.
        -- intros [H | (n' & a & _ & _ & [H | (c' & _ & _ & ->)])];
             try discriminate. reflexivity.
    + cbn [margin_of below_min_margin bind]. split; [discriminate|].
      intros [H | (n' & a & _ & _ & [H | (c' & Hc' & _)])]; discriminate.
    + split.
      * intros H. injection H as <-. right. exists n, avg.
        split; [reflexivity|]. split; [exact Hf|]. left. reflexivity.
      * intros [H | (n' & a & _ & _ & [H | (c' & Hc' & _)])];
          try discriminate. injection H as <-. reflexivity.
  - split; [discriminate|].
    intros [H | (n' & a & Hst & _)]; discriminate.
  - split.
    + intros H. injection H as <-. left. reflexivity.
    + intros [H | (n' & a & Hst & _)]; [|discriminate].
      injection H as <-. reflexivity.
Qed.

End ScoringFacts.


Lemma evaluate_keyword_raises_iff_witness :
  evaluate_keyword decimal_literal world_undecodable_quote "lamp" "AU"
    = Raise JSONDecodeError
  /\ evaluate_keyword decimal_literal world_undecodable_quote "lamp" "NZ"
     = Raise KeyError.
Proof.
  split.
  - apply (proj2 (proj2 (evaluate_keyword_raises_iff decimal_literal
                           world_undecodable_quote "lamp" "AU" JSONDecodeError)
                    "EBAY-AU" eq_refl)).
    right. exists 1, 20%Q. split; [reflexivity|].
    split; [exact passes_filters_one_at_20|]. left. reflexivity.
  - exact (proj1 (evaluate_keyword_raises_iff decimal_literal
                    world_undecodable_quote "lamp" "NZ" KeyError) eq_refl).
Defined.




Section AcceptanceFacts.

Variable float_of_str : string -> option Q.



End AcceptanceFacts.



(** ** The report (line 234) *)

Lemma insert_desc_unknown (c : candidate) (s : list candidate) :
  unknown c -> Forall unknown s -> exists s', insert_desc c s = Ok s'.
Proof.
  intros Hc Hs. induction Hs as [|d rest Hd _ [rest' IH]]; cbn [insert_desc].
  - eexists. reflexivity.
  - unfold unknown in Hc, Hd. rewrite Hd, Hc. cbn [cell_lt bind].
    rewrite IH. eexists. reflexivity.
Qed.

Lemma sort_values_desc_unknown (rows : list candidate) :
  Forall unknown rows -> exists s, sort_values_desc rows = Ok s.
Proof.
  induction 1 as [|c rest Hc Hrest [s1 IH]]; cbn [sort_values_desc].
  - eexists. reflexivity.
  - rewrite IH. cbn [bind]. apply insert_desc_unknown; [exact Hc|].
    exact (Permutation_Forall (sort_values_desc_perm _ _ IH) Hrest).
Qed.

Lemma margins_uniform_or_mixed (rows : list candidate) :
  Forall numeric rows \/ Forall unknown rows
  \/ exists c d, In c rows /\ In d rows /\ unknown c /\ numeric d.
Proof.
  induction rows as [|r rows IH]; [left; constructor|].
  assert (Hr : numeric r \/ unknown r).
  { unfold numeric, unknown. destruct (margin_pct r) as [x|];
      [left; exists x; reflexivity | right; reflexivity]. }
  destruct IH as [Hn | [Hu | (c & d & Hc & Hd & Hcu & Hdn)]].
  - destruct Hr as [Hr | Hr]; [left; constructor; assumption|].
    destruct rows as [|d rows'].
    + right. left. constructor; [exact Hr | constructor].
    + right. right. exists r, d. split; [left; reflexivity|].
      split; [right; left; reflexivity|]. split; [exact Hr|].
      apply Forall_cons_iff in Hn. tauto.
  - destruct Hr as [Hr | Hr]; [|right; left; constructor; assumption].
    destruct rows as [|c rows'].
    + left. constructor; [exact Hr | constructor].
    + right. right. exists c, r. split; [right; left; reflexivity|].
      split; [left; reflexivity|]. split; [|exact Hr].
      apply Forall_cons_iff in Hu. tauto.
  - right. right. exists c, d. split; [right; exact Hc|].
    split; [right; exact Hd|]. split; assumption.
Qed.

(** X16. Sorting the report by margin succeeds, with a permutation of the
    rows, exactly when the margins are all numbers or all ["n/a"]; it
    raises [TypeError] exactly when a row with ["n/a"] and a row with a
    number are both present. *)
Theorem sort_values_desc_outcome (rows : list candidate) :
  ((exists s, sort_values_desc rows = Ok s /\ Permutation rows s)
   <-> Forall numeric rows \/ Forall unknown rows)
  /\ (sort_values_desc rows = Raise TypeError
      <-> exists c d, In c rows /\ In d rows /\ unknown c /\ numeric d).
Proof.
  split; split.
  - intros (s & Hs & _). exact (sort_values_desc_uniform _ _ Hs).
  - intros [Hn | Hu].
    + destruct (sort_values_desc_numeric _ Hn) as (s & Hs & Hp & _).
      exists s. split; assumption.
    + destruct (sort_values_desc_unknown _ Hu) as [s Hs].
      exists s. split; [exact Hs | exact (sort_values_desc_perm _ _ Hs)].
  - intros Hraise.
    destruct (margins_uniform_or_mixed rows) as [Hn | [Hu | Hmixed]];
      [| |exact Hmixed]; exfalso.
    + destruct (sort_values_desc_numeric _ Hn) as (s & Hs & _). congruence.
    + destruct (sort_values_desc_unknown _ Hu) as [s Hs]. congruence.
  - intros (c & d & Hc & Hd & Hcu & Hdn).
    exact (sort_values_desc_mixed rows c d Hc Hcu Hd Hdn).
Qed.

Lemma margin_ge_trans (a b c : candidate) :
  margin_ge a b -> margin_ge b c -> margin_ge a c.
Proof.
  unfold margin_ge.
  destruct (margin_pct a), (margin_pct b), (margin_pct c); try tauto.
  intros H1 H2. eapply Qle_trans; eassumption.
Qed.

(** X17. A report whose margins are all numbers is written in descending
    order: it holds the same rows and every row has a margin at least that
    of every row after it. *)
Theorem sort_values_desc_descending (rows : list candidate) :
  Forall numeric rows ->
  exists s,
    sort_values_desc rows = Ok s
    /\ Permutation rows s
    /\ StronglySorted margin_ge s.
Proof.
  intros Hn. destruct (sort_values_desc_numeric _ Hn) as (s & Hs & Hp & Hsorted).
  exists s. split; [exact Hs|]. split; [exact Hp|].
  apply Sorted_StronglySorted; [|exact Hsorted].
  intros a b c. apply margin_ge_trans.
Qed.

Section ReportFacts.

Variable float_of_str : string -> option Q.





End ReportFacts.

Lemma sort_values_desc_outcome_witness :
  exists rows,
    discover_products decimal_literal world_mixed_margins = Ok rows
    /\ sort_values_desc rows = Raise TypeError.
Proof.
  eexists. split; [reflexivity|].
  apply (proj2 (proj2 (sort_values_desc_outcome _))).
  do 2 eexists. split; [right; left; reflexivity|].
  split; [left; reflexivity|]. split; [reflexivity | eexists; reflexivity].
Defined.

Lemma sort_values_desc_descending_witness :
  exists rows s,
    discover_products decimal_literal world_two_margins = Ok rows
    /\ map margin_pct rows = [Num 50; Num 80]
    /\ sort_values_desc rows = Ok s
    /\ map margin_pct s = [Num 80; Num 50]
    /\ StronglySorted margin_ge s.
Proof.
  do 2 eexists. split; [reflexivity|]. split; [reflexivity|].
  split; [reflexivity|]. split; [reflexivity|].
  destruct (sort_values_desc_descending
              [ {| keyword := "lamp"; region := "AU"; sell_price := 20;
                   cost_price := Num 10; margin_pct := Num 50;
                   ebay_listings := 1 |};
                {| keyword := "rug"; region := "AU"; sell_price := 20;
                   cost_price := Num 4; margin_pct := Num 80;
                   ebay_listings := 1 |} ])
    as (s & Hs & _ & Hsorted).
  { repeat constructor; eexists; reflexivity. }
  injection Hs as <-. exact Hsorted.
Defined.


(** ** The App ID resolver and [main] (lines 55-65, 214-238) *)





Section MainFacts.

Variable float_of_str : string -> option Q.


(** X21. When [main] saves a report, it ran in normal mode with a resolved
    App ID installed as [EBAY_APP_ID]; the rows saved are a permutation of
    the candidates discovered, of which there is at least one, their
    margins are all numbers or all ["n/a"], and the preview is their first
    twenty at most. *)
Theorem main_saved_report (w : world) (prompt : input_result) (args : cli_args)
    (rows preview : list candidate) :
  main float_of_str w prompt args = Ok (Returns (Saved rows preview)) ->
  run_tests args = false /\ demo args = false
  /\ exists id found,
       get_ebay_app_id w prompt (ebay_app_id_flag args) = Returns id
       /\ ebay_app_id (set_ebay_app_id w id) = Some id
       /\ discover_products float_of_str (set_ebay_app_id w id) = Ok found
       /\ found <> []
       /\ Permutation found rows
       /\ (Forall numeric rows \/ Forall unknown rows)
       /\ preview = firstn 20 rows
       /\ (List.length preview <= 20)%nat.
Proof.
  unfold main.
  destruct (run_tests args); [discriminate|].
  destruct (demo args).
  { destruct (demo_loop w (map fst GOOGLE_GEOS) []); discriminate. }
  destruct (get_ebay_app_id w prompt (ebay_app_id_flag args)) as [id|c] eqn:Hid;
    [|discriminate].
  destruct (discover_products float_of_str (set_ebay_app_id w id))
    as [[|r found]|e] eqn:Hfound; cbn [bind]; try discriminate.
  destruct (sort_values_desc (r :: found)) as [s|e] eqn:Hs; cbn [bind];
    [|discriminate].
  intros H. injection H as <- <-.
  split; [reflexivity|]. split; [reflexivity|].
  exists id, (r :: found). split; [reflexivity|]. split; [reflexivity|].
  split; [exact Hfound|]. split; [discriminate|].
  pose proof (sort_values_desc_perm _ _ Hs) as Hperm.
  split; [exact Hperm|]. split.
  - destruct (sort_values_desc_uniform _ _ Hs) as [H | H];
      [left | right]; exact (Permutation_Forall Hperm H).
  - split; [reflexivity | exact (firstn_le_length 20 s)].
Qed.

End MainFacts.



Lemma main_saved_report_witness :
  exists rows preview,
    main decimal_literal world_two_margins InputEOFError
      (normal_mode (Some "APP-1")) = Ok (Returns (Saved rows preview))
    /\ map margin_pct rows = [Num 80; Num 50]
    /\ preview = firstn 20 rows.
Proof.
  do 2 eexists. split; [reflexivity|]. split; [reflexivity|].
  destruct (main_saved_report decimal_literal world_two_margins InputEOFError
              (normal_mode (Some "APP-1")) _ _ eq_refl)
    as (_ & _ & _ & _ & _ & _ & _ & _ & _ & _ & Hpreview & _).
  exact Hpreview.
Defined.

Section DemoFacts.

Variable float_of_str : string -> option Q.

(** X23. In demo mode, given the keywords of the three regions, [main]
    lists them for AU, UK and US in that order, at most [TOP_N_TRENDS] per
    region, whatever the flag, the environment, the prompt and the answers
    of the marketplace and the supplier; if the trend provider raises for a
    region, so does [main]. *)
Theorem main_demo_lists (w : world) (prompt : input_result) (args : cli_args) :
  run_tests args = false ->
  demo args = true ->
  (forall au uk us,
      get_trending_keywords w "AU" TOP_N_TRENDS = Ok au ->
      get_trending_keywords w "UK" TOP_N_TRENDS = Ok uk ->
      get_trending_keywords w "US" TOP_N_TRENDS = Ok us ->
      main float_of_str w prompt args
        = Ok (Returns (DemoListed [("AU", au); ("UK", uk); ("US", us)]))
      /\ Forall (fun line => Z.of_nat (List.length (snd line)) <= TOP_N_TRENDS)
           [("AU", au); ("UK", uk); ("US", us)])
  /\ (forall reg e,
        In reg ["AU"; "UK"; "US"] ->
        get_trending_keywords w reg TOP_N_TRENDS = Raise e ->
        exists e', main float_of_str w prompt args = Raise e').
Proof.
  intros Ht Hd. unfold main. rewrite Ht, Hd.
  cbn [map fst GOOGLE_GEOS demo_loop]. split.
  - intros au uk us Hau Huk Hus. rewrite Hau, Huk, Hus. cbn [bind app].
    split; [reflexivity|].
    repeat constructor; cbn [snd];
      eapply get_trending_keywords_bound; eassumption.
  - intros reg e Hreg He.
    destruct (get_trending_keywords w "AU" TOP_N_TRENDS) as [au|e1] eqn:Hau;
      cbn [bind]; [|eexists; reflexivity].
    destruct (get_trending_keywords w "UK" TOP_N_TRENDS) as [uk|e2] eqn:Huk;
      cbn [bind]; [|eexists; reflexivity].
    destruct (get_trending_keywords w "US" TOP_N_TRENDS) as [us|e3] eqn:Hus;
      cbn [bind]; [|eexists; reflexivity].
    exfalso. cbn in Hreg.
    destruct Hreg as [<- | [<- | [<- | []]]]; congruence.
Qed.

End DemoFacts.

Lemma main_demo_lists_witness :
  main decimal_literal world_primary_down InputEOFError demo_mode
  = Ok (Returns (DemoListed
                   [("AU", ["tea"; "pot"]); ("UK", ["tea"; "pot"]);
                    ("US", ["tea"; "pot"])])).
Proof.
  exact (proj1 (proj1 (main_demo_lists decimal_literal world_primary_down
                         InputEOFError demo_mode eq_refl eq_refl)
                  ["tea"; "pot"] ["tea"; "pot"] ["tea"; "pot"]
                  eq_refl eq_refl eq_refl)).
Defined.
